(** * SoilLogger: the wake cycle of esp32_soil_temp_http.ino

    A shallow embedding of the sketch: every function of the source is a
    definition of the same name in a small monad that threads the global
    variables of the sketch ([jwtToken], [ntpSynced]), the millisecond clock
    and the number of answers already taken from the outside world, and that
    collects the observable events (serial log, pauses, network requests,
    display, power management) in the order the code issues them. *)

From Stdlib Require Import ZArith List String Bool Lia SpecFloat.
Import ListNotations.
Local Open Scope string_scope.
Local Open Scope list_scope.
Local Open Scope Z_scope.

(** ** Machine numbers *)

(** [uint32_t] / [unsigned long] on the ESP32: arithmetic modulo 2^32. *)
Definition wrap32 (z : Z) : Z := z mod 2 ^ 32.

(** [uint16_t], the result type of [analogRead]. *)
Definition wrap16 (z : Z) : Z := z mod 2 ^ 16.

(** IEEE 754 values.  [float] is binary32 and [double] binary64; both are
    [spec_float] values in the canonical form of their format, compared with
    [SFltb] (every comparison with a NaN is false). *)
Module F32.
Definition prec : Z := 24.
Definition emax : Z := 128.
Definition of_Z (z : Z) : spec_float := binary_normalize prec emax z 0 false.
End F32.

Module F64.
Definition prec : Z := 53.
Definition emax : Z := 1024.
Definition of_Z (z : Z) : spec_float := binary_normalize prec emax z 0 false.
Definition mul : spec_float -> spec_float -> spec_float := SFmul prec emax.
Definition div : spec_float -> spec_float -> spec_float := SFdiv prec emax.
(** The implicit conversion float -> double (exact). *)
Definition of_float (x : spec_float) : spec_float :=
  match x with
  | S754_finite s m e => binary_normalize prec emax (cond_Zopp s (Zpos m)) e s
  | _ => x
  end.
(** The implicit conversion double -> float (round to nearest even). *)
Definition to_float (x : spec_float) : spec_float :=
  match x with
  | S754_finite s m e =>
      binary_normalize F32.prec F32.emax (cond_Zopp s (Zpos m)) e s
  | _ => x
  end.
End F64.

(** Arduino's macro
    [constrain(amt,low,high) ((amt)<(low)?(low):((amt)>(high)?(high):(amt)))]. *)
Definition constrain (amt low high : spec_float) : spec_float :=
  if SFltb amt low then low else if SFltb high amt then high else amt.

(** The same macro on an argument that is a call: the call is made anew at
    each place the macro uses [amt], so the test against [low] sees the
    first answer, the test against [high] the second, and the value handed
    back is the third. *)
Definition constrain_call (amt : nat -> spec_float) (low high : spec_float)
  : spec_float :=
  if SFltb (amt 0%nat) low then low
  else if SFltb high (amt 1%nat) then high
  else amt 2%nat.

(** ** JSON documents (ArduinoJson), as ordered key/value lists *)

Inductive json_value : Type :=
| JString (s : string)
| JFloat (x : spec_float).

Definition json_doc : Type := list (string * json_value).

(** [doc[k] = v]: replaces the member [k] or appends it. *)
Fixpoint doc_set (k : string) (v : json_value) (d : json_doc) : json_doc :=
  match d with
  | [] => [(k, v)]
  | (k', v') :: d' =>
      if String.eqb k' k then (k, v) :: d' else (k', v') :: doc_set k v d'
  end.

Definition containsKey (k : string) (d : json_doc) : bool :=
  existsb (fun p => String.eqb (fst p) k) d.

(** ** User configuration and hardware definition *)

Definition WIFI_SSID : string := "YOUR_SSID".
Definition WIFI_PASSWORD : string := "YOUR_PASSWORD".
Definition DEVICE_USERNAME : string := "DEVICE_USERNAME".
Definition DEVICE_PASSWORD : string := "DEVICE_PASSWORD".
Definition DEVICE_ID : string := "esp32-001".
Definition AUTH_URL : string := "https://api.fanap-infra.com/v1/auth/login".
(** [snprintf(url, sizeof(url), DATA_URL_TEMPLATE, DEVICE_ID)]; the result
    is shorter than the 128 bytes of [url]. *)
Definition data_url : string :=
  String.append "https://api.fanap-infra.com/v1/devices/"
    (String.append DEVICE_ID "/data").

Definition SOIL_MOISTURE_PIN : Z := 34.
Definition ONE_WIRE_BUS_PIN : Z := 27.
Definition BUTTON_PIN : Z := 14.
Definition OLED_I2C_ADDR : Z := 60.

Definition SLEEP_INTERVAL_SEC : Z := 3600.
Definition DISPLAY_DURATION_MS : Z := 60000.
Definition TIME_SYNC_MODE : Z := 2.
Definition MAX_RETRIES : Z := 3.

Definition HTTP_CODE_OK : Z := 200.
Definition HTTP_CODE_CREATED : Z := 201.

(** ** The outside world *)

Inductive esp_sleep_wakeup_cause_t : Type :=
| ESP_SLEEP_WAKEUP_UNDEFINED
| ESP_SLEEP_WAKEUP_EXT0
| ESP_SLEEP_WAKEUP_EXT1
| ESP_SLEEP_WAKEUP_TIMER
| ESP_SLEEP_WAKEUP_TOUCHPAD
| ESP_SLEEP_WAKEUP_ULP.

Definition is_EXT0 (c : esp_sleep_wakeup_cause_t) : bool :=
  match c with ESP_SLEEP_WAKEUP_EXT0 => true | _ => false end.

(** What one [http.POST] gives back: the status code (negative on a
    transport error) and, for the authentication endpoint, the value of
    [res["token"].as<String>()] on the deserialized body. *)
Record http_reply : Type := mkReply { resp_code : Z; resp_token : string }.

(** Everything the sketch reads from its environment.  The answers of the
    polled services are indexed by the number of earlier calls; the probe
    is read by [readSensors] only, which runs once in a wake cycle.
    [getFormattedTime] is called by the sketch but not defined in it: it is
    a parameter of the environment, the text it returns while the k-th
    request is being built. *)
Record World : Type := mkWorld {
  wakeup_cause : esp_sleep_wakeup_cause_t; (* esp_sleep_get_wakeup_cause() *)
  wifi_connected : nat -> bool;     (* k-th WiFi.status() == WL_CONNECTED *)
  ntp_time : nat -> Z;              (* k-th time(nullptr) *)
  http_answer : nat -> http_reply;  (* answer to the k-th http.POST *)
  analog_raw : Z;                   (* analogRead(SOIL_MOISTURE_PIN) *)
  temp_c : nat -> spec_float;       (* k-th tempSensor.getTempCByIndex(0) *)
  getFormattedTime : nat -> string  (* getFormattedTime() for the k-th request *)
}.

(** ** Observable events *)

Inductive event : Type :=
| Serial_begin (baud : Z)
| Serial_print (msg : string)
| Serial_printf_d (fmt : string) (d : Z)
| Serial_printf_ff (fmt : string) (a b : spec_float)
| Display_begin (addr : Z)
| Display_clear
| TempSensor_begin
| PinMode_input_pullup (pin : Z)
| Enable_ext0_wakeup (pin level : Z)
| Enable_timer_wakeup (us : Z)
| WiFi_begin (ssid pass : string)
| ConfigTime (server : string)
| HTTP_POST (url : string) (headers : list (string * string)) (body : json_doc)
| Request_temperatures
| Display_show (moisture temperature : spec_float)
| Delay (ms : Z)
| Deep_sleep_start.

(** The events that put traffic on the network. *)
Definition is_network (e : event) : bool :=
  match e with
  | WiFi_begin _ _ | ConfigTime _ | HTTP_POST _ _ _ => true
  | _ => false
  end.

Definition is_post (e : event) : bool :=
  match e with HTTP_POST _ _ _ => true | _ => false end.

(** The pauses of a trace, in order. *)
Fixpoint pauses (t : list event) : list Z :=
  match t with
  | [] => []
  | Delay ms :: t' => ms :: pauses t'
  | _ :: t' => pauses t'
  end.

(** The (moisture, temperature) pairs handed to the display, in order. *)
Fixpoint displayed (t : list event) : list (spec_float * spec_float) :=
  match t with
  | [] => []
  | Display_show m c :: t' => (m, c) :: displayed t'
  | _ :: t' => displayed t'
  end.

(** The bodies of the requests sent to [url], in order. *)
Fixpoint bodies_to (url : string) (t : list event) : list json_doc :=
  match t with
  | [] => []
  | HTTP_POST u _ b :: t' =>
      if String.eqb u url then b :: bodies_to url t' else bodies_to url t'
  | _ :: t' => bodies_to url t'
  end.

Definition network_calls (t : list event) : nat :=
  List.length (filter is_post t).

(** ** Program state and the monad of the sketch *)

Record State : Type := mkState {
  jwtToken : string;   (* String jwtToken *)
  ntpSynced : bool;    (* bool ntpSynced = false *)
  millis : Z;          (* millis(), advanced by delay() *)
  n_status : nat;      (* WiFi.status() calls so far *)
  n_time : nat;        (* time(nullptr) calls so far *)
  n_post : nat         (* http.POST calls so far *)
}.

(** The state after a reset or a wake from deep sleep: globals hold their
    initializers. *)
Definition boot : State := mkState "" false 0 0 0 0.

(** A computation either runs out of loop fuel ([None]) or returns a value,
    the next state and the events it issued. *)
Definition M (A : Type) : Type := State -> option (A * State * list event).

Definition ret {A : Type} (a : A) : M A := fun s => Some (a, s, []).

Definition bind {A B : Type} (m : M A) (k : A -> M B) : M B :=
  fun s =>
    match m s with
    | None => None
    | Some (a, s1, t1) =>
        match k a s1 with
        | None => None
        | Some (b, s2, t2) => Some (b, s2, t1 ++ t2)
        end
    end.

Definition out_of_fuel {A : Type} : M A := fun _ => None.

Notation "x <- m ;; k" := (bind m (fun x => k))
  (at level 61, m at next level, right associativity).
Notation "m ;; k" := (bind m (fun _ => k))
  (at level 61, right associativity).

Definition emit (e : event) : M unit := fun s => Some (tt, s, [e]).

Definition get_jwtToken : M string := fun s => Some (jwtToken s, s, []).
Definition get_ntpSynced : M bool := fun s => Some (ntpSynced s, s, []).
Definition get_millis : M Z := fun s => Some (millis s, s, []).

Definition set_jwtToken (v : string) : M unit :=
  fun s => Some (tt, mkState v (ntpSynced s) (millis s)
                       (n_status s) (n_time s) (n_post s), []).

Definition set_ntpSynced (v : bool) : M unit :=
  fun s => Some (tt, mkState (jwtToken s) v (millis s)
                       (n_status s) (n_time s) (n_post s), []).

(** The state after a pause of [ms] milliseconds. *)
Definition advance (ms : Z) (s : State) : State :=
  mkState (jwtToken s) (ntpSynced s) (wrap32 (millis s + ms))
    (n_status s) (n_time s) (n_post s).

(** The state after one more [http.POST]. *)
Definition posted (s : State) : State :=
  mkState (jwtToken s) (ntpSynced s) (millis s)
    (n_status s) (n_time s) (S (n_post s)).

(** [delay(ms)]: a blocking pause; the only way the modelled clock moves. *)
Definition delay (ms : Z) : M unit :=
  fun s => Some (tt, advance ms s, [Delay ms]).

(** [WiFi.status() == WL_CONNECTED]. *)
Definition WiFi_status (w : World) : M bool :=
  fun s => Some (wifi_connected w (n_status s),
                 mkState (jwtToken s) (ntpSynced s) (millis s)
                   (S (n_status s)) (n_time s) (n_post s), []).

(** [time(nullptr)]. *)
Definition time_now (w : World) : M Z :=
  fun s => Some (ntp_time w (n_time s),
                 mkState (jwtToken s) (ntpSynced s) (millis s)
                   (n_status s) (S (n_time s)) (n_post s), []).

(** [getFormattedTime()]. *)
Definition formatted_time (w : World) : M string :=
  fun s => Some (getFormattedTime w (n_post s), s, []).

(** [http.POST(body)] on a client opened on [url] with [headers]. *)
Definition http_POST (w : World) (url : string)
    (headers : list (string * string)) (body : json_doc) : M http_reply :=
  fun s => Some (http_answer w (n_post s), posted s,
                 [HTTP_POST url headers body]).

(** ** The functions of the sketch *)

Definition initHardware : M unit :=
  emit (Display_begin OLED_I2C_ADDR) ;;
  emit Display_clear ;;
  emit TempSensor_begin ;;
  emit (PinMode_input_pullup BUTTON_PIN).

Definition initWake : M unit :=
  emit (Enable_ext0_wakeup BUTTON_PIN 0) ;;
  emit (Enable_timer_wakeup (SLEEP_INTERVAL_SEC * 1000000)).

Definition goToDeepSleep : M unit :=
  emit (Serial_print "Entering deep sleep...") ;;
  emit Deep_sleep_start.

(** [while (WiFi.status() != WL_CONNECTED) { delay(500); Serial.print('.'); }] *)
Fixpoint connectWiFi_loop (w : World) (fuel : nat) : M unit :=
  match fuel with
  | O => out_of_fuel
  | S fuel' =>
      connected <- WiFi_status w ;;
      if connected then ret tt
      else delay 500 ;; emit (Serial_print ".") ;; connectWiFi_loop w fuel'
  end.

Definition connectWiFi (w : World) (fuel : nat) : M unit :=
  emit (WiFi_begin WIFI_SSID WIFI_PASSWORD) ;;
  emit (Serial_print "Connecting to WiFi") ;;
  connectWiFi_loop w fuel ;;
  emit (Serial_print " Connected").

(** [while (now < 8*3600 && millis()-start < 5000)
       { delay(500); Serial.print('.'); now = time(nullptr); }]
    returning the last value of [now]. *)
Fixpoint syncTime_loop (w : World) (fuel : nat) (start now : Z) : M Z :=
  match fuel with
  | O => out_of_fuel
  | S fuel' =>
      ms <- get_millis ;;
      if (now <? 8 * 3600) && (wrap32 (ms - start) <? 5000) then
        delay 500 ;;
        emit (Serial_print ".") ;;
        now' <- time_now w ;;
        syncTime_loop w fuel' start now'
      else ret now
  end.

Definition syncTimeIfNeeded (w : World) (mode : Z) (fuel : nat) : M unit :=
  if (mode =? 0) || (mode =? 2) then
    emit (ConfigTime "pool.ntp.org") ;;
    emit (Serial_print "Sync NTP") ;;
    now <- time_now w ;;
    start <- get_millis ;;
    now' <- syncTime_loop w fuel start now ;;
    set_ntpSynced (8 * 3600 <=? now') ;;
    emit (Serial_print (if 8 * 3600 <=? now' then " OK" else " Failed"))
  else ret tt.

Definition auth_headers : list (string * string) :=
  [("Content-Type", "application/json")].

Definition auth_body : json_doc :=
  doc_set "password" (JString DEVICE_PASSWORD)
    (doc_set "username" (JString DEVICE_USERNAME) []).

Definition authenticate (w : World) : M unit :=
  r <- http_POST w AUTH_URL auth_headers auth_body ;;
  if resp_code r =? HTTP_CODE_OK then
    set_jwtToken (resp_token r) ;;
    emit (Serial_print "Authenticated")
  else
    r2 <- http_POST w AUTH_URL auth_headers auth_body ;;
    emit (Serial_printf_d "Auth failed: %d\n" (resp_code r2)).

(** [(4095 - raw) * 100.0 / 4095.0] is computed in [double], clamped, and
    stored in a [float].  The temperature is
    [constrain(tempSensor.getTempCByIndex(0), -40.0, 85.0)]: each use of the
    macro argument reads the probe again, the [float] answers are compared
    as [double], and the result is stored back in a [float]. *)
Definition read_moisture (w : World) : spec_float :=
  F64.to_float
    (constrain
       (F64.div (F64.mul (F64.of_Z (4095 - wrap16 (analog_raw w))) (F64.of_Z 100))
          (F64.of_Z 4095))
       (F64.of_Z 0) (F64.of_Z 100)).

Definition read_temperature (w : World) : spec_float :=
  F64.to_float
    (constrain_call (fun k => F64.of_float (temp_c w k))
       (F64.of_Z (-40)) (F64.of_Z 85)).

Definition readSensors (w : World) : M (spec_float * spec_float) :=
  let moisture := read_moisture w in
  emit Request_temperatures ;;
  let temperature := read_temperature w in
  emit (Serial_printf_ff "Moisture: %.1f%%, Temp: %.1f C\n" moisture temperature) ;;
  ret (moisture, temperature).

(** The display is a sink for the two numbers: one event per rendering. *)
Definition showDisplay (moisture temperature : spec_float) : M unit :=
  emit (Display_show moisture temperature).

(** The validation gate of [sendData]:
    [moisture < 0 || moisture > 100 || temperature < -40 || temperature > 85]. *)
Definition out_of_range (moisture temperature : spec_float) : bool :=
  SFltb moisture (F32.of_Z 0) || SFltb (F32.of_Z 100) moisture
  || SFltb temperature (F32.of_Z (-40)) || SFltb (F32.of_Z 85) temperature.

Definition data_headers (token : string) : list (string * string) :=
  [("Content-Type", "application/json");
   ("Authorization", String.append "Bearer " token)].

(** The document built by [sendData] from [ts]:
    [if (ts.length()) doc["timestamp"] = ts;
     doc["soil_moisture"] = moisture; doc["temperature"] = temperature;] *)
Definition telemetry_doc (ts : string)
    (moisture temperature : spec_float) : json_doc :=
  let doc := [] in
  let doc := if (String.length ts =? 0)%nat then doc
             else doc_set "timestamp" (JString ts) doc in
  let doc := doc_set "soil_moisture" (JFloat moisture) doc in
  doc_set "temperature" (JFloat temperature) doc.

Definition http_success (code : Z) : bool :=
  (code =? HTTP_CODE_CREATED) || (code =? HTTP_CODE_OK).

Definition sendData (w : World) (moisture temperature : spec_float) : M bool :=
  if out_of_range moisture temperature then
    emit (Serial_print "Sensor values out of range, abort send") ;;
    ret false
  else
    token <- get_jwtToken ;;
    synced <- get_ntpSynced ;;
    (* String ts = ntpSynced ? getFormattedTime() : String(); *)
    ts <- (if synced then formatted_time w else ret "") ;;
    r <- http_POST w data_url (data_headers token)
           (telemetry_doc ts moisture temperature) ;;
    ret (http_success (resp_code r)).

(** The two ways out of [sendDataWithRetry]: the [return] after a
    successful [sendData], and the end of the loop. *)
Inductive DeliveryOutcome : Type := Sent | Abandoned.

Fixpoint sendDataWithRetry_loop (w : World) (fuel : nat)
    (moisture temperature : spec_float) (attempt delayMs : Z)
  : M DeliveryOutcome :=
  match fuel with
  | O => out_of_fuel
  | S fuel' =>
      if attempt <? MAX_RETRIES then
        ok <- sendData w moisture temperature ;;
        if ok then
          emit (Serial_print "Data sent successfully") ;;
          ret Sent
        else
          emit (Serial_printf_d "Send failed, retry %d\n" (attempt + 1)) ;;
          delay delayMs ;;
          sendDataWithRetry_loop w fuel' moisture temperature
            (attempt + 1) (wrap32 (delayMs * 2))
      else
        emit (Serial_print "Max retries reached, giving up") ;;
        ret Abandoned
  end.

Definition sendDataWithRetry (w : World) (fuel : nat)
    (moisture temperature : spec_float) : M DeliveryOutcome :=
  sendDataWithRetry_loop w fuel moisture temperature 0 1000.

Definition runFullCycle (w : World) (mode : Z) (fuel : nat) : M unit :=
  connectWiFi w fuel ;;
  syncTimeIfNeeded w mode fuel ;;
  authenticate w ;;
  r <- readSensors w ;;
  showDisplay (fst r) (snd r) ;;
  delay 2000 ;;
  sendDataWithRetry w fuel (fst r) (snd r) ;;
  goToDeepSleep.

Definition handleButtonEvent (w : World) : M unit :=
  r <- readSensors w ;;
  showDisplay (fst r) (snd r) ;;
  delay DISPLAY_DURATION_MS ;;
  goToDeepSleep.

Definition setup (w : World) (mode : Z) (fuel : nat) : M unit :=
  emit (Serial_begin 115200) ;;
  initHardware ;;
  initWake ;;
  if is_EXT0 (wakeup_cause w) then handleButtonEvent w
  else runFullCycle w mode fuel.

(** ** Vocabulary of the statements *)

(** A telemetry document built for the reading [(m, t)] under the trust
    flag [synced]: its [ts] is empty, or the text [getFormattedTime] gave
    for some request. *)
Definition stamped (w : World) (synced : bool) (m t : spec_float)
    (doc : json_doc) : Prop :=
  exists k, doc = telemetry_doc (if synced then getFormattedTime w k else "") m t.

(** The number of requests [authenticate] makes when it is the first to
    use the network: one when the answer is 200, two otherwise. *)
Definition auth_requests (w : World) : nat :=
  if resp_code (http_answer w 0) =? HTTP_CODE_OK then 1 else 2.

(** The value of [ts] in a call of [sendData] from the state [s]. *)
Definition timestamp_text (w : World) (s : State) : string :=
  if ntpSynced s then getFormattedTime w (n_post s) else "".

(** State components that no polling loop touches. *)
Definition same_net (s1 s2 : State) : Prop :=
  jwtToken s1 = jwtToken s2 /\ ntpSynced s1 = ntpSynced s2 /\
  n_post s1 = n_post s2.

(** A computation whose result, events and effect on those three
    components depend on those three components only. *)
Definition agree {A : Type} (m : M A) : Prop :=
  forall s1 s2, same_net s1 s2 ->
    match m s1, m s2 with
    | Some (a1, s1', t1), Some (a2, s2', t2) =>
        a1 = a2 /\ t1 = t2 /\ same_net s1' s2'
    | None, None => True
    | _, _ => False
    end.

(** What [runFullCycle] does once the time is reconciled. *)
Definition after_sync (w : World) (fuel : nat) : M unit :=
  authenticate w ;;
  r <- readSensors w ;;
  showDisplay (fst r) (snd r) ;;
  delay 2000 ;;
  sendDataWithRetry w fuel (fst r) (snd r) ;;
  goToDeepSleep.

(** The headers of the requests sent to [url], in order. *)
Fixpoint headers_to (url : string) (t : list event)
  : list (list (string * string)) :=
  match t with
  | [] => []
  | HTTP_POST u h _ :: t' =>
      if String.eqb u url then h :: headers_to url t' else headers_to url t'
  | _ :: t' => headers_to url t'
  end.

(** The events of [n] turns of a polling loop of the sketch:
    [delay(500); Serial.print('.');]. *)
Fixpoint poll_turns (n : nat) : list event :=
  match n with
  | O => []
  | S n' => Delay 500 :: Serial_print "." :: poll_turns n'
  end.

(** The milliseconds a trace spends in [delay]. *)
Definition total_pause (t : list event) : Z := fold_right Z.add 0 (pauses t).

(** The moisture [readSensors] computes from the ADC count [raw]. *)
Definition moisture_of_count (raw : Z) : spec_float :=
  F64.to_float
    (constrain
       (F64.div (F64.mul (F64.of_Z (4095 - raw)) (F64.of_Z 100))
          (F64.of_Z 4095))
       (F64.of_Z 0) (F64.of_Z 100)).

(** A number, not below 0 and not above 100. *)
Definition moisture_in_bounds (v : spec_float) : bool :=
  negb (SFltb v (F32.of_Z 0)) && negb (SFltb (F32.of_Z 100) v)
  && match v with S754_nan => false | _ => true end.

(** The counts [256 * hi], ..., [256 * hi + 255] all give a moisture in
    bounds. *)
Definition moisture_row_ok (hi : nat) : bool :=
  forallb
    (fun lo => moisture_in_bounds
                 (moisture_of_count (256 * Z.of_nat hi + Z.of_nat lo)))
    (seq 0 256).

(** A value whose sign bit is [s]: a zero, a finite number or an infinity
    of that sign, and not a NaN. *)
Definition signed (s : bool) (x : spec_float) : Prop :=
  x = S754_zero s \/ (exists m e, x = S754_finite s m e) \/ x = S754_infinity s.

(** The threshold of [syncTimeIfNeeded]: [8*3600] seconds after the epoch. *)
Definition time_is_plausible (now : Z) : bool := 8 * 3600 <=? now.

(** ** Sample environments

    Concrete worlds on which the statements below are exercised. *)

Definition iso_stamp : string := "2025-05-05T14:30:00Z".

(** Timer wake, WiFi up at the first poll, network time available, every
    request answered 200 with the token [abc]. *)
Definition world_ok : World :=
  mkWorld ESP_SLEEP_WAKEUP_TIMER (fun _ => true) (fun _ => 1746455400)
    (fun _ => mkReply 200 "abc") 2000 (fun _ => F32.of_Z 22) (fun _ => iso_stamp).

(** As [world_ok], but the two requests to the authentication endpoint are
    answered 401. *)
Definition world_auth_fails : World :=
  mkWorld ESP_SLEEP_WAKEUP_TIMER (fun _ => true) (fun _ => 1746455400)
    (fun k => if (k <? 2)%nat then mkReply 401 "" else mkReply 200 "")
    2000 (fun _ => F32.of_Z 22) (fun _ => iso_stamp).

(** As [world_ok], but every request is answered 500. *)
Definition world_all_fail : World :=
  mkWorld ESP_SLEEP_WAKEUP_TIMER (fun _ => true) (fun _ => 1746455400)
    (fun _ => mkReply 500 "") 2000 (fun _ => F32.of_Z 22) (fun _ => iso_stamp).

(** As [world_ok], but the access point is never reached. *)
Definition world_no_wifi : World :=
  mkWorld ESP_SLEEP_WAKEUP_TIMER (fun _ => false) (fun _ => 1746455400)
    (fun _ => mkReply 200 "abc") 2000 (fun _ => F32.of_Z 22) (fun _ => iso_stamp).

(** As [world_ok], but the clock is never set by the time service. *)
Definition world_no_ntp : World :=
  mkWorld ESP_SLEEP_WAKEUP_TIMER (fun _ => true) (fun _ => 0)
    (fun _ => mkReply 200 "abc") 2000 (fun _ => F32.of_Z 22) (fun _ => iso_stamp).

(** As [world_ok], but the temperature probe reports a NaN. *)
Definition world_nan : World :=
  mkWorld ESP_SLEEP_WAKEUP_TIMER (fun _ => true) (fun _ => 1746455400)
    (fun _ => mkReply 200 "abc") 2000 (fun _ => S754_nan) (fun _ => iso_stamp).

(** The button woke the device. *)
Definition world_button : World :=
  mkWorld ESP_SLEEP_WAKEUP_EXT0 (fun _ => false) (fun _ => 0)
    (fun _ => mkReply 200 "abc") 2000 (fun _ => F32.of_Z 22) (fun _ => iso_stamp).

(** As [world_ok], but the access point answers from the fourth poll on. *)
Definition world_slow_wifi : World :=
  mkWorld ESP_SLEEP_WAKEUP_TIMER (fun i => (3 <=? i)%nat) (fun _ => 1746455400)
    (fun _ => mkReply 200 "abc") 2000 (fun _ => F32.of_Z 22) (fun _ => iso_stamp).

(** As [world_ok], but the clock is set from the third reading on. *)
Definition world_late_ntp : World :=
  mkWorld ESP_SLEEP_WAKEUP_TIMER (fun _ => true)
    (fun i => if (2 <=? i)%nat then 1746455400 else 12)
    (fun _ => mkReply 200 "abc") 2000 (fun _ => F32.of_Z 22) (fun _ => iso_stamp).

(** As [world_ok], but the probe answers 22 degrees twice and then -127,
    the value the DallasTemperature library returns when a read fails. *)
Definition world_probe_glitch : World :=
  mkWorld ESP_SLEEP_WAKEUP_TIMER (fun _ => true) (fun _ => 1746455400)
    (fun _ => mkReply 200 "abc") 2000
    (fun k => if (k <? 2)%nat then F32.of_Z 22 else F32.of_Z (-127))
    (fun _ => iso_stamp).

(** As [world_ok], but [getFormattedTime] returns the empty text. *)
Definition world_empty_stamp : World :=
  mkWorld ESP_SLEEP_WAKEUP_TIMER (fun _ => true) (fun _ => 1746455400)
    (fun _ => mkReply 200 "abc") 2000 (fun _ => F32.of_Z 22) (fun _ => "").


(** A reading inside the bounds, and one with the moisture above 100. *)
Definition moisture_45 : spec_float := F32.of_Z 45.
Definition moisture_101 : spec_float := F32.of_Z 101.
Definition temperature_22 : spec_float := F32.of_Z 22.

(** * Properties *)

(** ** Running one step of the monad *)

Lemma bind_Some {A B : Type} (m : M A) (k : A -> M B) s a s1 t1 :
  m s = Some (a, s1, t1) ->
  bind m k s =
  match k a s1 with
  | None => None
  | Some (b, s2, t2) => Some (b, s2, t1 ++ t2)
  end.
Proof. intros H. unfold bind. rewrite H. reflexivity. Qed.

Lemma bind_None {A B : Type} (m : M A) (k : A -> M B) s :
  m s = None -> bind m k s = None.
Proof. intros H. unfold bind. rewrite H. reflexivity. Qed.

(** ** The two branches of [sendData] *)

Lemma sendData_rejected w m t s :
  out_of_range m t = true ->
  sendData w m t s =
  Some (false, s, [Serial_print "Sensor values out of range, abort send"]).
Proof. intros H. unfold sendData. rewrite H. reflexivity. Qed.

Lemma sendData_posted w m t s :
  out_of_range m t = false ->
  sendData w m t s =
  Some (http_success (resp_code (http_answer w (n_post s))), posted s,
        [HTTP_POST data_url (data_headers (jwtToken s))
           (telemetry_doc (timestamp_text w s) m t)]).
Proof.
  intros H. unfold sendData, timestamp_text. rewrite H.
  unfold bind at 1. cbn [get_jwtToken]. unfold bind at 1. cbn [get_ntpSynced].
  destruct (ntpSynced s); reflexivity.
Qed.

(** ** One turn of the retry loop *)

Lemma retry_exit w f m t a d s :
  MAX_RETRIES <= a ->
  sendDataWithRetry_loop w (S f) m t a d s =
  Some (Abandoned, s, [Serial_print "Max retries reached, giving up"]).
Proof.
  intros H. cbn [sendDataWithRetry_loop].
  destruct (Z.ltb_spec a MAX_RETRIES); [lia | reflexivity].
Qed.

Lemma retry_ok_step w f m t a d s s1 t1 :
  a < MAX_RETRIES ->
  sendData w m t s = Some (true, s1, t1) ->
  sendDataWithRetry_loop w (S f) m t a d s =
  Some (Sent, s1, t1 ++ [Serial_print "Data sent successfully"]).
Proof.
  intros Ha H. cbn [sendDataWithRetry_loop].
  destruct (Z.ltb_spec a MAX_RETRIES); [|lia].
  rewrite (bind_Some _ _ _ _ _ _ H). reflexivity.
Qed.

Lemma retry_fail_step w f m t a d s s1 t1 :
  a < MAX_RETRIES ->
  sendData w m t s = Some (false, s1, t1) ->
  sendDataWithRetry_loop w (S f) m t a d s =
  match sendDataWithRetry_loop w f m t (a + 1) (wrap32 (d * 2)) (advance d s1) with
  | None => None
  | Some (o, s2, t2) =>
      Some (o, s2,
            t1 ++ Serial_printf_d "Send failed, retry %d\n" (a + 1) :: Delay d :: t2)
  end.
Proof.
  intros Ha H. cbn [sendDataWithRetry_loop].
  destruct (Z.ltb_spec a MAX_RETRIES); [|lia].
  rewrite (bind_Some _ _ _ _ _ _ H). cbn [bind emit delay].
  destruct (sendDataWithRetry_loop w f m t (a + 1) (wrap32 (d * 2)) (advance d s1))
    as [[[o s2] t2]|]; reflexivity.
Qed.

(** ** Delivery: first-attempt success *)

(** C9: when the first delivery attempt succeeds, that is when the first
    call of [sendData] returns true, the status it received was 200 or 201
    and [sendDataWithRetry] leaves through its [return] (outcome [Sent])
    after exactly one network call and no pause. *)
Theorem first_attempt_success_sent w fuel m t s s1 t1 :
  (0 < fuel)%nat ->
  sendData w m t s = Some (true, s1, t1) ->
  exists tr,
    sendDataWithRetry w fuel m t s = Some (Sent, s1, tr) /\
    network_calls tr = 1%nat /\
    pauses tr = [] /\
    (resp_code (http_answer w (n_post s)) = 200 \/
     resp_code (http_answer w (n_post s)) = 201).
Proof.
  intros Hf H. destruct fuel as [|f]; [lia|].
  unfold sendDataWithRetry.
  rewrite (retry_ok_step w f m t 0 1000 s s1 t1 ltac:(reflexivity) H).
  destruct (out_of_range m t) eqn:Hr.
  - rewrite (sendData_rejected _ _ _ _ Hr) in H. discriminate.
  - rewrite (sendData_posted _ _ _ _ Hr) in H.
    injection H as Hok _ <-. eexists. split; [reflexivity|].
    repeat split.
    unfold http_success, HTTP_CODE_CREATED, HTTP_CODE_OK in Hok.
    apply orb_true_iff in Hok. destruct Hok as [Hc|Hc];
      apply Z.eqb_eq in Hc; auto.
Qed.

Lemma first_attempt_success_sent_witness :
  exists tr,
    sendDataWithRetry world_ok 4 moisture_45 temperature_22 boot
    = Some (Sent, posted boot, tr) /\
    network_calls tr = 1%nat /\
    pauses tr = [] /\
    (resp_code (http_answer world_ok (n_post boot)) = 200 \/
     resp_code (http_answer world_ok (n_post boot)) = 201).
Proof.
  apply (first_attempt_success_sent world_ok 4 moisture_45 temperature_22 boot
           (posted boot)
           [HTTP_POST data_url (data_headers "")
              (telemetry_doc "" moisture_45 temperature_22)]).
  - lia.
  - reflexivity.
Defined.

(** ** Authentication *)

(** The credentials document, member by member. *)
Lemma auth_body_members :
  auth_body = [("username", JString DEVICE_USERNAME);
               ("password", JString DEVICE_PASSWORD)].
Proof. reflexivity. Qed.

(** C10: when the authentication request is answered with a status other
    than 200, [authenticate] issues the same POST (same endpoint, same
    credentials) a second time as the argument of the failure log: exactly
    two requests carry the credentials, the second answer only supplies the
    number that is logged, and [jwtToken] is left as it was whatever that
    answer is. *)
Theorem authenticate_failure_posts_twice w s :
  resp_code (http_answer w (n_post s)) <> HTTP_CODE_OK ->
  exists s' tr,
    authenticate w s = Some (tt, s', tr) /\
    tr = [HTTP_POST AUTH_URL auth_headers auth_body;
          HTTP_POST AUTH_URL auth_headers auth_body;
          Serial_printf_d "Auth failed: %d\n"
            (resp_code (http_answer w (S (n_post s))))] /\
    network_calls tr = 2%nat /\
    bodies_to AUTH_URL tr = [auth_body; auth_body] /\
    jwtToken s' = jwtToken s /\
    n_post s' = S (S (n_post s)).
Proof.
  intros H. exists (posted (posted s)). eexists.
  split; [|split; [reflexivity|repeat split]].
  unfold authenticate.
  rewrite (bind_Some _ _ s (http_answer w (n_post s)) (posted s)
             [HTTP_POST AUTH_URL auth_headers auth_body] eq_refl).
  destruct (Z.eqb_spec (resp_code (http_answer w (n_post s))) HTTP_CODE_OK)
    as [E|_]; [contradiction|].
  reflexivity.
Qed.

Lemma authenticate_failure_posts_twice_witness :
  exists s' tr,
    authenticate world_auth_fails boot = Some (tt, s', tr) /\
    tr = [HTTP_POST AUTH_URL auth_headers auth_body;
          HTTP_POST AUTH_URL auth_headers auth_body;
          Serial_printf_d "Auth failed: %d\n"
            (resp_code (http_answer world_auth_fails (S (n_post boot))))] /\
    network_calls tr = 2%nat /\
    bodies_to AUTH_URL tr = [auth_body; auth_body] /\
    jwtToken s' = jwtToken boot /\
    n_post s' = S (S (n_post boot)).
Proof.
  apply (authenticate_failure_posts_twice world_auth_fails boot).
  vm_compute. discriminate.
Defined.

(** ** Delivery: every attempt fails *)

(** A failed attempt on a reading that passed the gate. *)
Ltac retry_failed H :=
  erewrite retry_fail_step;
  [ | unfold MAX_RETRIES; lia
    | rewrite sendData_posted by assumption;
      cbn [n_post advance posted]; rewrite H; reflexivity ].

(** A rejected attempt on a reading that did not pass the gate. *)
Ltac retry_rejected :=
  erewrite retry_fail_step;
  [ | unfold MAX_RETRIES; lia
    | rewrite sendData_rejected by assumption; reflexivity ].

(** C2, counterexample: with every request answered 500, the three attempts
    are followed by three pauses, the last one (4000 ms) after the third
    attempt; the pauses are not 1000 ms and 2000 ms only. *)
Lemma all_attempts_fail_pauses_after_last :
  exists s' tr0,
    sendDataWithRetry world_all_fail 4 moisture_45 temperature_22 boot
    = Some (Abandoned, s',
            tr0 ++ [HTTP_POST data_url (data_headers "")
                      (telemetry_doc "" moisture_45 temperature_22);
                    Serial_printf_d "Send failed, retry %d\n" 3;
                    Delay 4000;
                    Serial_print "Max retries reached, giving up"]) /\
    pauses tr0 = [1000; 2000] /\
    network_calls tr0 = 2%nat /\
    millis s' = 7000.
Proof.
  eexists. exists
    [HTTP_POST data_url (data_headers "")
       (telemetry_doc "" moisture_45 temperature_22);
     Serial_printf_d "Send failed, retry %d\n" 1; Delay 1000;
     HTTP_POST data_url (data_headers "")
       (telemetry_doc "" moisture_45 temperature_22);
     Serial_printf_d "Send failed, retry %d\n" 2; Delay 2000].
  split; [vm_compute; reflexivity|]. repeat split.
Qed.

(** C2 (amended): when the three attempts all fail, [sendDataWithRetry]
    makes exactly three attempts (three POSTs) and pauses after each of
    them, the last one included: three pauses of 1000, 2000 and 4000 ms, the
    4000 ms one between the third attempt and the final log line. *)
Theorem all_attempts_fail_three_pauses w fuel m t s :
  (3 < fuel)%nat ->
  out_of_range m t = false ->
  (forall k, (k < 3)%nat ->
     http_success (resp_code (http_answer w (n_post s + k))) = false) ->
  exists s' tr tr0,
    sendDataWithRetry w fuel m t s = Some (Abandoned, s', tr) /\
    network_calls tr = 3%nat /\
    pauses tr = [1000; 2000; 4000] /\
    tr = tr0 ++ [Serial_printf_d "Send failed, retry %d\n" 3;
                 Delay 4000;
                 Serial_print "Max retries reached, giving up"] /\
    pauses tr0 = [1000; 2000] /\
    n_post s' = (n_post s + 3)%nat.
Proof.
  intros Hf Hr H.
  pose proof (H 0%nat ltac:(lia)) as H0. rewrite Nat.add_0_r in H0.
  pose proof (H 1%nat ltac:(lia)) as H1. rewrite Nat.add_1_r in H1.
  pose proof (H 2%nat ltac:(lia)) as H2.
  replace (n_post s + 2)%nat with (S (S (n_post s))) in H2 by lia.
  destruct fuel as [|[|[|[|f]]]]; try lia.
  unfold sendDataWithRetry.
  retry_failed H0. retry_failed H1. retry_failed H2.
  rewrite retry_exit by (unfold MAX_RETRIES; lia).
  eexists. eexists.
  exists
    [HTTP_POST data_url (data_headers (jwtToken s))
       (telemetry_doc (timestamp_text w s) m t);
     Serial_printf_d "Send failed, retry %d\n" 1; Delay 1000;
     HTTP_POST data_url (data_headers (jwtToken s))
       (telemetry_doc (timestamp_text w (posted s)) m t);
     Serial_printf_d "Send failed, retry %d\n" 2; Delay 2000;
     HTTP_POST data_url (data_headers (jwtToken s))
       (telemetry_doc (timestamp_text w (posted (posted s))) m t)].
  split; [reflexivity|]. repeat split.
  cbn [n_post advance posted]. lia.
Qed.

Lemma all_attempts_fail_three_pauses_witness :
  exists s' tr tr0,
    sendDataWithRetry world_all_fail 4 moisture_45 temperature_22 boot
    = Some (Abandoned, s', tr) /\
    network_calls tr = 3%nat /\
    pauses tr = [1000; 2000; 4000] /\
    tr = tr0 ++ [Serial_printf_d "Send failed, retry %d\n" 3;
                 Delay 4000;
                 Serial_print "Max retries reached, giving up"] /\
    pauses tr0 = [1000; 2000] /\
    n_post s' = (n_post boot + 3)%nat.
Proof.
  apply (all_attempts_fail_three_pauses world_all_fail 4
           moisture_45 temperature_22 boot).
  - lia.
  - reflexivity.
  - intros k _. reflexivity.
Defined.

(** ** Delivery: the validation gate *)

Lemma out_of_range_intro m t :
  SFltb m (F32.of_Z 0) = true \/ SFltb (F32.of_Z 100) m = true \/
  SFltb t (F32.of_Z (-40)) = true \/ SFltb (F32.of_Z 85) t = true ->
  out_of_range m t = true.
Proof.
  unfold out_of_range. intros [H|[H|[H|H]]]; rewrite H;
    rewrite ?orb_true_r; reflexivity.
Qed.

(** C5, counterexample: a moisture of 101 makes no request and ends
    [Abandoned], but not at once: the gate inside [sendData] rejects the
    reading on each of the three attempts, and the retry loop pauses after
    each rejection, 7000 ms in all. *)
Lemma out_of_bounds_not_immediate :
  SFltb (F32.of_Z 100) moisture_101 = true /\
  exists s',
    sendDataWithRetry world_ok 4 moisture_101 temperature_22 boot
    = Some (Abandoned, s',
            [Serial_print "Sensor values out of range, abort send";
             Serial_printf_d "Send failed, retry %d\n" 1; Delay 1000;
             Serial_print "Sensor values out of range, abort send";
             Serial_printf_d "Send failed, retry %d\n" 2; Delay 2000;
             Serial_print "Sensor values out of range, abort send";
             Serial_printf_d "Send failed, retry %d\n" 3; Delay 4000;
             Serial_print "Max retries reached, giving up"]) /\
    millis s' = 7000.
Proof.
  split; [reflexivity|]. eexists. split; [vm_compute; reflexivity|reflexivity].
Qed.

(** C5 (amended): for every reading whose moisture is below 0 or above 100,
    or whose temperature is below -40 or above 85, [sendDataWithRetry] ends
    [Abandoned] without any network call; it does so after the gate has
    rejected the reading on each of the three attempts, with the pauses of
    the retry loop in between. *)
Theorem out_of_bounds_abandoned_without_network w fuel m t s :
  (3 < fuel)%nat ->
  SFltb m (F32.of_Z 0) = true \/ SFltb (F32.of_Z 100) m = true \/
  SFltb t (F32.of_Z (-40)) = true \/ SFltb (F32.of_Z 85) t = true ->
  exists s' tr,
    sendDataWithRetry w fuel m t s = Some (Abandoned, s', tr) /\
    network_calls tr = 0%nat /\
    filter is_network tr = [] /\
    n_post s' = n_post s /\
    pauses tr = [1000; 2000; 4000].
Proof.
  intros Hf Hb. apply out_of_range_intro in Hb.
  destruct fuel as [|[|[|[|f]]]]; try lia.
  unfold sendDataWithRetry.
  retry_rejected. retry_rejected. retry_rejected.
  rewrite retry_exit by (unfold MAX_RETRIES; lia).
  eexists. eexists. split; [reflexivity|]. repeat split.
Qed.

Lemma out_of_bounds_abandoned_without_network_witness :
  exists s' tr,
    sendDataWithRetry world_ok 4 moisture_101 temperature_22 boot
    = Some (Abandoned, s', tr) /\
    network_calls tr = 0%nat /\
    filter is_network tr = [] /\
    n_post s' = n_post boot /\
    pauses tr = [1000; 2000; 4000].
Proof.
  apply (out_of_bounds_abandoned_without_network world_ok 4
           moisture_101 temperature_22 boot).
  - lia.
  - right. left. reflexivity.
Defined.

(** ** Delivery: no token *)

(** C1, counterexample: after a failed authentication ([jwtToken] still
    empty) the cycle posts the reading all the same, with an empty bearer
    value, and the delivery ends [Sent] when the collector answers 200. *)
Lemma token_absent_still_delivers :
  jwtToken boot = "" /\
  sendDataWithRetry world_ok 4 moisture_45 temperature_22 boot
  = Some (Sent, posted boot,
          [HTTP_POST data_url
             [("Content-Type", "application/json"); ("Authorization", "Bearer ")]
             (telemetry_doc "" moisture_45 temperature_22);
           Serial_print "Data sent successfully"]) /\
  exists s' tr,
    setup world_auth_fails TIME_SYNC_MODE 12 boot = Some (tt, s', tr) /\
    jwtToken s' = "" /\
    In (Serial_printf_d "Auth failed: %d\n" 401) tr /\
    In (HTTP_POST data_url
          [("Content-Type", "application/json"); ("Authorization", "Bearer ")]
          (telemetry_doc iso_stamp (read_moisture world_auth_fails)
             (read_temperature world_auth_fails))) tr /\
    In (Serial_print "Data sent successfully") tr.
Proof.
  split; [reflexivity|]. split; [vm_compute; reflexivity|].
  eexists. eexists. split; [vm_compute; reflexivity|].
  split; [reflexivity|]. cbn [In]. repeat split; auto 40.
Qed.

(** Every request of a trace of known length carries the expected headers. *)
Ltac posts_checked :=
  repeat (apply Forall_cons;
          [first [discriminate | intros _; eexists; reflexivity]|]);
  apply Forall_nil.

(** A successful attempt on a reading that passed the gate. *)
Ltac retry_succeeded H :=
  erewrite retry_ok_step;
  [ | unfold MAX_RETRIES; lia
    | rewrite sendData_posted by assumption;
      cbn [n_post advance posted]; rewrite H; reflexivity ].

(** C1 (amended): [sendDataWithRetry] has no gate on the token.  When the
    token is absent (empty) and the reading passes the validation gate, it
    makes between one and three requests, each carrying the header
    [Authorization: Bearer ] with nothing after it, and it ends [Sent] after
    a single request when the first answer is 200 or 201.  Only a reading
    that fails the validation gate gives [Abandoned] with no network call. *)
Theorem token_absent_delivery_proceeds w fuel m t s :
  (3 < fuel)%nat ->
  jwtToken s = "" ->
  exists o s' tr,
    sendDataWithRetry w fuel m t s = Some (o, s', tr) /\
    (out_of_range m t = false ->
       (1 <= network_calls tr <= 3)%nat /\
       Forall (fun e => is_post e = true ->
                 exists doc,
                   e = HTTP_POST data_url
                         [("Content-Type", "application/json");
                          ("Authorization", "Bearer ")] doc) tr /\
       (http_success (resp_code (http_answer w (n_post s))) = true ->
          o = Sent /\ network_calls tr = 1%nat)) /\
    (out_of_range m t = true -> o = Abandoned /\ network_calls tr = 0%nat).
Proof.
  intros Hf Htok.
  destruct fuel as [|[|[|[|f]]]]; try lia.
  unfold sendDataWithRetry.
  destruct (out_of_range m t) eqn:Hr.
  - retry_rejected. retry_rejected. retry_rejected.
    rewrite retry_exit by (unfold MAX_RETRIES; lia).
    do 3 eexists. split; [reflexivity|]. split; [discriminate|].
    intros _. split; reflexivity.
  - assert (Hhdr : data_headers (jwtToken s) =
                   [("Content-Type", "application/json");
                    ("Authorization", "Bearer ")])
      by (rewrite Htok; reflexivity).
    destruct (http_success (resp_code (http_answer w (n_post s)))) eqn:H0.
    { retry_succeeded H0.
      do 3 eexists. split; [reflexivity|]. split; [|discriminate].
      intros _. rewrite Hhdr. cbn [app]. split; [cbn; lia|]. split.
      - posts_checked.
      - intros _. split; reflexivity. }
    retry_failed H0.
    destruct (http_success (resp_code (http_answer w (S (n_post s))))) eqn:H1.
    { retry_succeeded H1.
      do 3 eexists. split; [reflexivity|]. split; [|discriminate].
      intros _. cbn [jwtToken ntpSynced advance posted]. rewrite Hhdr.
      cbn [app]. split; [cbn; lia|]. split.
      - posts_checked.
      - discriminate. }
    retry_failed H1.
    destruct (http_success (resp_code (http_answer w (S (S (n_post s))))))
      eqn:H2.
    { retry_succeeded H2.
      do 3 eexists. split; [reflexivity|]. split; [|discriminate].
      intros _. cbn [jwtToken ntpSynced advance posted]. rewrite Hhdr.
      cbn [app]. split; [cbn; lia|]. split.
      - posts_checked.
      - discriminate. }
    retry_failed H2.
    rewrite retry_exit by (unfold MAX_RETRIES; lia).
    do 3 eexists. split; [reflexivity|]. split; [|discriminate].
    intros _. cbn [jwtToken ntpSynced advance posted]. rewrite Hhdr.
    cbn [app]. split; [cbn; lia|]. split.
    + posts_checked.
    + discriminate.
Qed.

Lemma token_absent_delivery_proceeds_witness :
  exists o s' tr,
    sendDataWithRetry world_auth_fails 4 moisture_45 temperature_22 (posted (posted boot))
    = Some (o, s', tr) /\
    (out_of_range moisture_45 temperature_22 = false ->
       (1 <= network_calls tr <= 3)%nat /\
       Forall (fun e => is_post e = true ->
                 exists doc,
                   e = HTTP_POST data_url
                         [("Content-Type", "application/json");
                          ("Authorization", "Bearer ")] doc) tr /\
       (http_success
          (resp_code (http_answer world_auth_fails (n_post (posted (posted boot)))))
        = true -> o = Sent /\ network_calls tr = 1%nat)) /\
    (out_of_range moisture_45 temperature_22 = true ->
       o = Abandoned /\ network_calls tr = 0%nat).
Proof.
  apply (token_absent_delivery_proceeds world_auth_fails 4
           moisture_45 temperature_22 (posted (posted boot))).
  - lia.
  - reflexivity.
Defined.

(** ** Delivery: a reading that is not a number *)

(** The clamping of [readSensors] lets a NaN through. *)
Lemma constrain_nan low high : constrain S754_nan low high = S754_nan.
Proof. destruct low, high; reflexivity. Qed.

Lemma constrain_call_nan amt low high :
  (forall k, amt k = S754_nan) -> constrain_call amt low high = S754_nan.
Proof.
  intros H. unfold constrain_call. rewrite !H. destruct low, high; reflexivity.
Qed.

(** The gate does reject the two infinities. *)
Lemma infinite_moisture_rejected (sign : bool) t :
  out_of_range (S754_infinity sign) t = true.
Proof. destruct sign; reflexivity. Qed.

Lemma infinite_temperature_rejected (sign : bool) m :
  out_of_range m (S754_infinity sign) = true.
Proof.
  unfold out_of_range. destruct sign; cbn; rewrite ?orb_true_r; reflexivity.
Qed.

(** C4: a NaN is not treated as out of bounds.  Every comparison of the
    gate is false on a NaN, so [sendData] goes on to build the document and
    to post it: a NaN moisture, a NaN temperature, or both, cost one network
    call per attempt, and the NaN is in the body that is sent. *)
Theorem nan_reading_is_transmitted w s :
  out_of_range S754_nan S754_nan = false /\
  out_of_range S754_nan temperature_22 = false /\
  out_of_range moisture_45 S754_nan = false /\
  sendData w moisture_45 S754_nan s =
  Some (http_success (resp_code (http_answer w (n_post s))), posted s,
        [HTTP_POST data_url (data_headers (jwtToken s))
           (telemetry_doc (timestamp_text w s) moisture_45 S754_nan)]) /\
  In ("temperature", JFloat S754_nan)
     (telemetry_doc (timestamp_text w s) moisture_45 S754_nan).
Proof.
  split; [reflexivity|]. split; [reflexivity|]. split; [reflexivity|].
  split; [apply sendData_posted; reflexivity|].
  unfold telemetry_doc.
  destruct (String.length (timestamp_text w s) =? 0)%nat; cbn; auto.
Qed.

(** The same in a whole cycle: the probe reports a NaN, [readSensors] hands
    it on, and the cycle posts it and logs a successful delivery. *)
Lemma nan_temperature_cycle :
  read_temperature world_nan = S754_nan /\
  exists s' tr,
    setup world_nan TIME_SYNC_MODE 12 boot = Some (tt, s', tr) /\
    bodies_to data_url tr =
      [[("timestamp", JString iso_stamp);
        ("soil_moisture", JFloat (read_moisture world_nan));
        ("temperature", JFloat S754_nan)]] /\
    In (Serial_print "Data sent successfully") tr.
Proof.
  split; [reflexivity|]. eexists. eexists.
  split; [vm_compute; reflexivity|]. split; [reflexivity|].
  cbn [In]. auto 40.
Qed.

(** ** The button cycle *)

(** C7: when the wake cause is EXT0, [setup] runs to its end with the
    events below and no other: no WiFi, time-service or HTTP event, exactly
    one pair handed to the display (the one [readSensors] returned), both
    wake sources armed (by [initWake], ahead of the reading), a hold of
    [DISPLAY_DURATION_MS], and deep sleep as the last event. *)
Theorem button_wake_cycle w mode fuel s :
  wakeup_cause w = ESP_SLEEP_WAKEUP_EXT0 ->
  exists s' tr,
    setup w mode fuel s = Some (tt, s', tr) /\
    tr = [Serial_begin 115200;
          Display_begin OLED_I2C_ADDR; Display_clear; TempSensor_begin;
          PinMode_input_pullup BUTTON_PIN;
          Enable_ext0_wakeup BUTTON_PIN 0;
          Enable_timer_wakeup 3600000000;
          Request_temperatures;
          Serial_printf_ff "Moisture: %.1f%%, Temp: %.1f C\n"
            (read_moisture w) (read_temperature w);
          Display_show (read_moisture w) (read_temperature w);
          Delay 60000;
          Serial_print "Entering deep sleep...";
          Deep_sleep_start] /\
    filter is_network tr = [] /\
    network_calls tr = 0%nat /\
    displayed tr = [(read_moisture w, read_temperature w)] /\
    In (Enable_ext0_wakeup BUTTON_PIN 0) tr /\
    In (Enable_timer_wakeup (SLEEP_INTERVAL_SEC * 1000000)) tr /\
    last tr Display_clear = Deep_sleep_start /\
    n_post s' = n_post s.
Proof.
  intros H. unfold setup. rewrite H. cbn [is_EXT0].
  eexists. eexists. split; [reflexivity|]. split; [reflexivity|].
  repeat split; cbn [In app]; auto 10.
Qed.

Lemma button_wake_cycle_witness :
  exists s' tr,
    setup world_button TIME_SYNC_MODE 0 boot = Some (tt, s', tr) /\
    tr = [Serial_begin 115200;
          Display_begin OLED_I2C_ADDR; Display_clear; TempSensor_begin;
          PinMode_input_pullup BUTTON_PIN;
          Enable_ext0_wakeup BUTTON_PIN 0;
          Enable_timer_wakeup 3600000000;
          Request_temperatures;
          Serial_printf_ff "Moisture: %.1f%%, Temp: %.1f C\n"
            (read_moisture world_button) (read_temperature world_button);
          Display_show (read_moisture world_button) (read_temperature world_button);
          Delay 60000;
          Serial_print "Entering deep sleep...";
          Deep_sleep_start] /\
    filter is_network tr = [] /\
    network_calls tr = 0%nat /\
    displayed tr = [(read_moisture world_button, read_temperature world_button)] /\
    In (Enable_ext0_wakeup BUTTON_PIN 0) tr /\
    In (Enable_timer_wakeup (SLEEP_INTERVAL_SEC * 1000000)) tr /\
    last tr Display_clear = Deep_sleep_start /\
    n_post s' = n_post boot.
Proof.
  apply (button_wake_cycle world_button TIME_SYNC_MODE 0 boot).
  reflexivity.
Defined.

(** ** Termination of the wake cycle *)

(** The WiFi loop has no exit but a connected status. *)
Lemma connectWiFi_loop_never w :
  (forall k, wifi_connected w k = false) ->
  forall fuel s, connectWiFi_loop w fuel s = None.
Proof.
  intros Hw. induction fuel as [|f IH]; intros s; [reflexivity|].
  cbn [connectWiFi_loop]. unfold bind at 1. cbn [WiFi_status]. rewrite Hw.
  unfold bind at 1. cbn [delay]. unfold bind at 1. cbn [emit].
  rewrite IH. reflexivity.
Qed.

Lemma runFullCycle_never w mode :
  (forall k, wifi_connected w k = false) ->
  forall fuel s, runFullCycle w mode fuel s = None.
Proof.
  intros Hw fuel s. unfold runFullCycle, connectWiFi.
  apply bind_None. unfold bind at 1. cbn [emit]. unfold bind at 1. cbn [emit].
  rewrite (bind_None _ _ _ (connectWiFi_loop_never w Hw fuel s)). reflexivity.
Qed.

(** C3: the wait for the access point has no upper bound.  In the world
    where [WiFi.status()] never reports a connection, the timer-wake cycle
    does not get past [connectWiFi], whatever number of loop turns it is
    given: [goToDeepSleep] is never reached. *)
Theorem wifi_never_connected_never_sleeps fuel :
  setup world_no_wifi TIME_SYNC_MODE fuel boot = None.
Proof.
  unfold setup.
  change (is_EXT0 (wakeup_cause world_no_wifi)) with false. cbv iota.
  unfold bind at 1. cbn [emit]. unfold bind at 1.
  change (initHardware boot) with
    (Some (tt, boot, [Display_begin OLED_I2C_ADDR; Display_clear;
                      TempSensor_begin; PinMode_input_pullup BUTTON_PIN])).
  cbv iota beta. unfold bind at 1.
  change (initWake boot) with
    (Some (tt, boot, [Enable_ext0_wakeup BUTTON_PIN 0;
                      Enable_timer_wakeup (SLEEP_INTERVAL_SEC * 1000000)])).
  cbv iota beta.
  rewrite (runFullCycle_never world_no_wifi TIME_SYNC_MODE
             (fun _ => eq_refl) fuel boot).
  reflexivity.
Qed.

(** The WiFi loop returns once a poll reports a connection. *)
Lemma connectWiFi_loop_connects w k :
  forall fuel s,
    wifi_connected w (n_status s + k) = true ->
    (k < fuel)%nat ->
    exists s' tr,
      connectWiFi_loop w fuel s = Some (tt, s', tr) /\
      same_net s' s /\ bodies_to data_url tr = [].
Proof.
  induction k as [|k IH]; intros fuel s Hk Hf;
    (destruct fuel as [|f]; [lia|]); cbn [connectWiFi_loop];
    unfold bind at 1; cbn [WiFi_status].
  - rewrite Nat.add_0_r in Hk. rewrite Hk. cbn [ret app].
    eexists. eexists. split; [reflexivity|]. split; [repeat split|reflexivity].
  - destruct (wifi_connected w (n_status s)).
    + cbn [ret app]. eexists. eexists. split; [reflexivity|].
      split; [repeat split|reflexivity].
    + unfold bind at 1. cbn [delay]. unfold bind at 1. cbn [emit].
      match goal with
      | |- context [connectWiFi_loop w f ?st] =>
          destruct (IH f st) as (s' & tr & E & Hn & Hb)
      end.
      * cbn [n_status advance]. rewrite <- Hk. f_equal. lia.
      * lia.
      * rewrite E. eexists. eexists. split; [reflexivity|].
        destruct Hn as (A & B & C).
        split; [split; [exact A|split; [exact B|exact C]]|].
        cbn [app bodies_to]. exact Hb.
Qed.

Lemma bodies_to_app url t1 t2 :
  bodies_to url (t1 ++ t2) = bodies_to url t1 ++ bodies_to url t2.
Proof.
  induction t1 as [|e t1 IH]; [reflexivity|].
  destruct e; cbn [app bodies_to]; try exact IH.
  destruct (String.eqb url0 url); [cbn [app]; f_equal|]; exact IH.
Qed.

(** The elapsed time seen by the time-sync loop grows by 500 ms per turn. *)
Lemma wrap32_elapsed a start j :
  wrap32 (a - start) = 500 * j -> 0 <= j < 10 ->
  wrap32 (wrap32 (a + 500) - start) = 500 * (j + 1).
Proof.
  unfold wrap32. change (2 ^ 32) with 4294967296. intros H Hj.
  rewrite Zminus_mod_idemp_l.
  replace (a + 500 - start) with ((a - start) + 500) by lia.
  rewrite <- Zplus_mod_idemp_l. rewrite H.
  replace (500 * (j + 1)) with (500 * j + 500) by lia.
  apply Z.mod_small. lia.
Qed.

(** The time-sync loop leaves after at most ten turns: its guard compares
    the elapsed milliseconds with 5000 and each turn pauses 500 ms. *)
Lemma syncTime_loop_returns w start :
  forall fuel now s j,
    0 <= j <= 10 ->
    wrap32 (millis s - start) = 500 * j ->
    (Z.to_nat (10 - j) < fuel)%nat ->
    exists now' s' tr,
      syncTime_loop w fuel start now s = Some (now', s', tr) /\
      same_net s' s /\
      bodies_to data_url tr = [] /\
      ((forall k, ntp_time w k < 8 * 3600) -> now < 8 * 3600 ->
       now' < 8 * 3600).
Proof.
  induction fuel as [|f IH]; intros now s j Hj Hm Hf; [lia|].
  cbn [syncTime_loop]. unfold bind at 1. cbn [get_millis].
  destruct ((now <? 8 * 3600) && (wrap32 (millis s - start) <? 5000)) eqn:Hc.
  - apply andb_true_iff in Hc. destruct Hc as [_ Hc].
    apply Z.ltb_lt in Hc. rewrite Hm in Hc.
    unfold bind at 1. cbn [delay]. unfold bind at 1. cbn [emit].
    unfold bind at 1. cbn [time_now].
    match goal with
    | |- context [syncTime_loop w f start ?n ?st] =>
        destruct (IH n st (j + 1)) as (now' & s' & tr & E & Hn & Hb & Ht)
    end.
    + lia.
    + cbn [millis advance]. apply wrap32_elapsed; [exact Hm|lia].
    + lia.
    + rewrite E. do 3 eexists. split; [reflexivity|].
      destruct Hn as (A & B & C).
      split; [split; [exact A|split; [exact B|exact C]]|].
      split; [cbn [app bodies_to]; exact Hb|].
      intros Hall _. apply Ht; [exact Hall|apply Hall].
  - cbn [ret app]. do 3 eexists. split; [reflexivity|].
    split; [repeat split|]. split; [reflexivity|]. auto.
Qed.

(** [syncTimeIfNeeded] always returns; it writes [ntpSynced] in the modes
    0 and 2 only, and never sets it when the time service stays below the
    threshold of eight hours. *)
Lemma syncTimeIfNeeded_returns w mode fuel s :
  (10 < fuel)%nat ->
  exists s' tr,
    syncTimeIfNeeded w mode fuel s = Some (tt, s', tr) /\
    jwtToken s' = jwtToken s /\
    n_post s' = n_post s /\
    bodies_to data_url tr = [] /\
    ((mode =? 0) || (mode =? 2) = false -> s' = s /\ tr = []) /\
    ((forall k, ntp_time w k < 8 * 3600) -> (mode =? 0) || (mode =? 2) = true ->
     ntpSynced s' = false).
Proof.
  intros Hf. unfold syncTimeIfNeeded.
  destruct ((mode =? 0) || (mode =? 2)) eqn:Hmode.
  - unfold bind at 1. cbn [emit]. unfold bind at 1. cbn [emit].
    unfold bind at 1. cbn [time_now]. unfold bind at 1. cbn [get_millis millis].
    unfold bind at 1.
    match goal with
    | |- context [syncTime_loop w fuel ?st ?n ?s0] =>
        destruct (syncTime_loop_returns w st fuel n s0 0)
          as (now' & s' & tr & E & (A & B & C) & Hb & Ht)
    end.
    + lia.
    + cbn [millis]. rewrite Z.sub_diag. reflexivity.
    + change (Z.to_nat (10 - 0)) with 10%nat. lia.
    + rewrite E. unfold bind at 1. cbn [set_ntpSynced]. cbn [emit].
      do 2 eexists. split; [reflexivity|].
      split; [exact A|]. split; [exact C|].
      split; [cbn [app bodies_to]; rewrite bodies_to_app, Hb; reflexivity|].
      split; [discriminate|].
      intros Hall _. cbn [ntpSynced]. apply Z.leb_gt.
      apply Ht; [exact Hall|apply Hall].
  - do 2 eexists. split; [reflexivity|]. repeat split; auto. discriminate.
Qed.

(** ** Computations that only depend on the token, the trust flag and the
       number of requests *)


Lemma agree_ret {A : Type} (a : A) : agree (ret a).
Proof. intros s1 s2 H. cbn. auto. Qed.

Lemma agree_emit e : agree (emit e).
Proof. intros s1 s2 H. cbn. auto. Qed.

Lemma agree_delay ms : agree (delay ms).
Proof. intros s1 s2 H. cbn. repeat split; apply H. Qed.

Lemma agree_get_jwtToken : agree get_jwtToken.
Proof. intros s1 s2 H. cbn. repeat split; apply H. Qed.

Lemma agree_get_ntpSynced : agree get_ntpSynced.
Proof. intros s1 s2 H. cbn. repeat split; apply H. Qed.

Lemma agree_formatted_time w : agree (formatted_time w).
Proof. intros s1 s2 (A & B & C). cbn. rewrite C. repeat split; assumption. Qed.

Lemma agree_set_jwtToken v : agree (set_jwtToken v).
Proof. intros s1 s2 H. cbn. repeat split; apply H. Qed.

Lemma agree_http_POST w url headers body : agree (http_POST w url headers body).
Proof.
  intros s1 s2 (A & B & C). cbn. rewrite C.
  repeat split; cbn; congruence.
Qed.

Lemma agree_bind {A B : Type} (m : M A) (k : A -> M B) :
  agree m -> (forall a, agree (k a)) -> agree (bind m k).
Proof.
  intros Hm Hk s1 s2 H. specialize (Hm s1 s2 H). unfold bind.
  destruct (m s1) as [[[a1 s1'] t1]|], (m s2) as [[[a2 s2'] t2]|];
    try contradiction; [|exact I].
  destruct Hm as (-> & -> & Hn). specialize (Hk a2 s1' s2' Hn).
  destruct (k a2 s1') as [[[b1 u1] r1]|], (k a2 s2') as [[[b2 u2] r2]|];
    try contradiction; [|exact I].
  destruct Hk as (-> & -> & Hu). auto.
Qed.

Ltac agree_steps :=
  repeat first
    [ apply agree_ret | apply agree_emit | apply agree_delay
    | apply agree_get_jwtToken | apply agree_get_ntpSynced
    | apply agree_set_jwtToken | apply agree_http_POST
    | apply agree_formatted_time
    | apply agree_bind; [|intro]
    | match goal with
      | |- agree (if ?b then _ else _) => destruct b
      end ].

Lemma agree_authenticate w : agree (authenticate w).
Proof. unfold authenticate. agree_steps. Qed.

Lemma agree_readSensors w : agree (readSensors w).
Proof. unfold readSensors. agree_steps. Qed.

Lemma agree_sendData w m t : agree (sendData w m t).
Proof. unfold sendData. agree_steps. Qed.

Lemma agree_sendDataWithRetry_loop w m t :
  forall fuel a d, agree (sendDataWithRetry_loop w fuel m t a d).
Proof.
  induction fuel as [|f IH]; intros a d.
  - intros s1 s2 _. exact I.
  - cbn [sendDataWithRetry_loop].
    destruct (a <? MAX_RETRIES); [|agree_steps].
    apply agree_bind; [apply agree_sendData|].
    intros [|]; agree_steps. apply IH.
Qed.


Lemma runFullCycle_split w mode fuel :
  runFullCycle w mode fuel =
  (connectWiFi w fuel ;; syncTimeIfNeeded w mode fuel ;; after_sync w fuel).
Proof. reflexivity. Qed.

Lemma agree_after_sync w fuel : agree (after_sync w fuel).
Proof.
  unfold after_sync, showDisplay, sendDataWithRetry, goToDeepSleep.
  apply agree_bind; [apply agree_authenticate|intros _].
  apply agree_bind; [apply agree_readSensors|intros r].
  agree_steps. apply agree_sendDataWithRetry_loop.
Qed.

(** ** What a full cycle sends *)

Lemma bodies_to_data_post headers body tr :
  bodies_to data_url (HTTP_POST data_url headers body :: tr)
  = body :: bodies_to data_url tr.
Proof. cbn [bodies_to]. rewrite String.eqb_refl. reflexivity. Qed.

Lemma displayed_app t1 t2 : displayed (t1 ++ t2) = displayed t1 ++ displayed t2.
Proof.
  induction t1 as [|e t1 IH]; [reflexivity|].
  destruct e; cbn [app displayed]; try exact IH. f_equal. exact IH.
Qed.

Lemma last_app_two {A : Type} (l : list A) (a b d : A) :
  last (l ++ [a; b]) d = b.
Proof.
  change [a; b] with ([a] ++ [b]). rewrite app_assoc. apply last_last.
Qed.

Lemma authenticate_returns w s :
  exists s' tr,
    authenticate w s = Some (tt, s', tr) /\
    ntpSynced s' = ntpSynced s /\
    bodies_to data_url tr = [] /\
    displayed tr = [].
Proof.
  unfold authenticate.
  rewrite (bind_Some _ _ s (http_answer w (n_post s)) (posted s)
             [HTTP_POST AUTH_URL auth_headers auth_body] eq_refl).
  destruct (resp_code (http_answer w (n_post s)) =? HTTP_CODE_OK);
    do 2 eexists; (split; [reflexivity|]); repeat split.
Qed.

(** The retry loop returns within [MAX_RETRIES] turns, leaves the trust
    flag and the token alone, and every body it posts is the document built
    from the trust flag and the reading. *)
Lemma sendDataWithRetry_loop_returns w m t :
  forall fuel a d s,
    (Z.to_nat (MAX_RETRIES - a) < fuel)%nat ->
    exists o s' tr,
      sendDataWithRetry_loop w fuel m t a d s = Some (o, s', tr) /\
      ntpSynced s' = ntpSynced s /\
      jwtToken s' = jwtToken s /\
      Forall (stamped w (ntpSynced s) m t) (bodies_to data_url tr) /\
      displayed tr = [].
Proof.
  induction fuel as [|f IH]; intros a d s Hf; [lia|].
  destruct (Z.lt_ge_cases a MAX_RETRIES) as [Ha|Ha].
  - destruct (out_of_range m t) eqn:Hr.
    + rewrite (retry_fail_step w f m t a d s _ _ Ha (sendData_rejected w m t s Hr)).
      destruct (IH (a + 1) (wrap32 (d * 2)) (advance d s))
        as (o & s' & tr & E & Hn & Hj & Hb & Hd); [lia|].
      rewrite E. do 3 eexists. split; [reflexivity|].
      split; [exact Hn|]. split; [exact Hj|]. split; [exact Hb|exact Hd].
    + pose proof (sendData_posted w m t s Hr) as Hp.
      destruct (http_success (resp_code (http_answer w (n_post s)))).
      * rewrite (retry_ok_step w f m t a d s _ _ Ha Hp).
        do 3 eexists. split; [reflexivity|]. repeat split.
        cbn [app]. rewrite bodies_to_data_post.
        constructor; [exists (n_post s); reflexivity|constructor].
      * rewrite (retry_fail_step w f m t a d s _ _ Ha Hp).
        destruct (IH (a + 1) (wrap32 (d * 2)) (advance d (posted s)))
          as (o & s' & tr & E & Hn & Hj & Hb & Hd); [lia|].
        rewrite E. do 3 eexists. split; [reflexivity|].
        split; [exact Hn|]. split; [exact Hj|].
        split; [|exact Hd].
        cbn [app]. rewrite bodies_to_data_post.
        constructor; [exists (n_post s); reflexivity|]. exact Hb.
  - rewrite (retry_exit w f m t a d s Ha).
    do 3 eexists. split; [reflexivity|]. repeat split. constructor.
Qed.

Lemma after_sync_returns w fuel s :
  (3 < fuel)%nat ->
  exists s' tr,
    after_sync w fuel s = Some (tt, s', tr) /\
    ntpSynced s' = ntpSynced s /\
    Forall (stamped w (ntpSynced s) (read_moisture w) (read_temperature w))
      (bodies_to data_url tr) /\
    displayed tr = [(read_moisture w, read_temperature w)] /\
    last tr Display_clear = Deep_sleep_start.
Proof.
  intros Hf. unfold after_sync.
  destruct (authenticate_returns w s) as (s1 & t1 & E1 & Hn1 & Hb1 & Hd1).
  rewrite (bind_Some _ _ _ _ _ _ E1).
  rewrite (bind_Some _ _ s1 (read_moisture w, read_temperature w) s1
             [Request_temperatures;
              Serial_printf_ff "Moisture: %.1f%%, Temp: %.1f C\n"
                (read_moisture w) (read_temperature w)] eq_refl).
  cbn [fst snd].
  rewrite (bind_Some _ _ s1 tt s1
             [Display_show (read_moisture w) (read_temperature w)] eq_refl).
  rewrite (bind_Some _ _ s1 tt (advance 2000 s1) [Delay 2000] eq_refl).
  destruct (sendDataWithRetry_loop_returns w (read_moisture w)
              (read_temperature w) fuel 0 1000 (advance 2000 s1))
    as (o & s2 & t2 & E2 & Hn2 & _ & Hb2 & Hd2).
  { change (Z.to_nat (MAX_RETRIES - 0)) with 3%nat. lia. }
  unfold sendDataWithRetry. rewrite (bind_Some _ _ _ _ _ _ E2).
  change (goToDeepSleep s2) with
    (Some (tt, s2, [Serial_print "Entering deep sleep..."; Deep_sleep_start])).
  do 2 eexists. split; [reflexivity|].
  split; [rewrite Hn2; exact Hn1|].
  split; [|split].
  - rewrite bodies_to_app, Hb1. cbn [app bodies_to].
    rewrite bodies_to_app. cbn [bodies_to]. rewrite app_nil_r.
    rewrite <- Hn1. exact Hb2.
  - rewrite displayed_app, Hd1. cbn [app displayed].
    rewrite displayed_app, Hd2. reflexivity.
  - rewrite !app_assoc. apply last_app_two.
Qed.

Lemma connectWiFi_returns w fuel s k :
  wifi_connected w (n_status s + k) = true ->
  (k < fuel)%nat ->
  exists s' tr,
    connectWiFi w fuel s = Some (tt, s', tr) /\
    same_net s' s /\
    bodies_to data_url tr = [] /\
    displayed tr = [].
Proof.
  intros Hk Hf. unfold connectWiFi.
  rewrite (bind_Some _ _ s tt s [WiFi_begin WIFI_SSID WIFI_PASSWORD] eq_refl).
  rewrite (bind_Some _ _ s tt s [Serial_print "Connecting to WiFi"] eq_refl).
  destruct (connectWiFi_loop_connects w k fuel s Hk Hf) as (s1 & t1 & E & Hn & Hb).
  rewrite (bind_Some _ _ _ _ _ _ E). cbn [emit].
  do 2 eexists. split; [reflexivity|]. split; [exact Hn|].
  assert (Hd : forall f st st' tr, connectWiFi_loop w f st = Some (tt, st', tr) ->
                                   displayed tr = []).
  { induction f as [|f IH]; intros st st' tr; [discriminate|].
    cbn [connectWiFi_loop]. unfold bind at 1. cbn [WiFi_status].
    destruct (wifi_connected w (n_status st)).
    - cbn [ret app]. intros H. injection H as _ <-. reflexivity.
    - unfold bind at 1. cbn [delay]. unfold bind at 1. cbn [emit].
      match goal with
      | |- context [connectWiFi_loop w f ?x] =>
          destruct (connectWiFi_loop w f x) as [[[[] y] r]|] eqn:Er;
            [|discriminate]
      end.
      intros H. injection H as _ <-. cbn [app displayed].
      exact (IH _ _ _ Er). }
  split.
  - cbn [app bodies_to]. rewrite bodies_to_app, Hb. reflexivity.
  - cbn [app displayed]. rewrite displayed_app, (Hd _ _ _ _ E). reflexivity.
Qed.

(** A full cycle, piece by piece: once a WiFi poll succeeds, each of the
    three stages returns, and the cycle is their sequence. *)
Lemma runFullCycle_stages w mode fuel s k :
  wifi_connected w (n_status s + k) = true ->
  (k < fuel)%nat ->
  (10 < fuel)%nat ->
  exists s1 t1 s2 t2 s3 t3,
    connectWiFi w fuel s = Some (tt, s1, t1) /\
    syncTimeIfNeeded w mode fuel s1 = Some (tt, s2, t2) /\
    after_sync w fuel s2 = Some (tt, s3, t3) /\
    runFullCycle w mode fuel s = Some (tt, s3, t1 ++ t2 ++ t3) /\
    same_net s1 s /\
    jwtToken s2 = jwtToken s /\ n_post s2 = n_post s /\
    ntpSynced s3 = ntpSynced s2 /\
    ((mode =? 0) || (mode =? 2) = false -> s2 = s1 /\ t2 = []) /\
    ((forall j, ntp_time w j < 8 * 3600) -> (mode =? 0) || (mode =? 2) = true ->
     ntpSynced s2 = false) /\
    bodies_to data_url (t1 ++ t2 ++ t3) = bodies_to data_url t3 /\
    Forall (stamped w (ntpSynced s2) (read_moisture w) (read_temperature w))
      (bodies_to data_url t3) /\
    last (t1 ++ t2 ++ t3) Display_clear = Deep_sleep_start.
Proof.
  intros Hk Hfk Hf.
  destruct (connectWiFi_returns w fuel s k Hk Hfk)
    as (s1 & t1 & E1 & Hn1 & Hb1 & _).
  destruct (syncTimeIfNeeded_returns w mode fuel s1 Hf)
    as (s2 & t2 & E2 & Hj2 & Hp2 & Hb2 & Hoff & Hfail).
  destruct (after_sync_returns w fuel s2 ltac:(lia))
    as (s3 & t3 & E3 & Hn3 & Hb3 & _ & Hl3).
  exists s1, t1, s2, t2, s3, t3.
  split; [exact E1|]. split; [exact E2|]. split; [exact E3|].
  split.
  { rewrite runFullCycle_split.
    rewrite (bind_Some _ _ _ _ _ _ E1), (bind_Some _ _ _ _ _ _ E2), E3.
    reflexivity. }
  destruct Hn1 as (A & B & C).
  split; [repeat split; assumption|].
  split; [congruence|]. split; [congruence|]. split; [exact Hn3|].
  split; [exact Hoff|]. split; [exact Hfail|].
  split; [rewrite !bodies_to_app, Hb1, Hb2; reflexivity|].
  split; [exact Hb3|].
  (* the last event of the cycle is the last event of its last stage *)
  assert (Hne : t3 <> []).
  { intros ->. cbn in Hl3. discriminate. }
  rewrite app_assoc. generalize (t1 ++ t2). intros l.
  destruct (exists_last Hne) as (l3 & e & ->).
  rewrite last_last in Hl3. rewrite app_assoc, last_last. exact Hl3.
Qed.

(** Every timer-wake cycle in which some WiFi poll succeeds reaches deep
    sleep: the time-sync loop, the backoff pauses and the display pause are
    bounded. *)
Lemma setup_reaches_sleep_when_wifi_connects w mode fuel k :
  wifi_connected w k = true ->
  (k < fuel)%nat ->
  (10 < fuel)%nat ->
  exists s' tr,
    setup w mode fuel boot = Some (tt, s', tr) /\
    last tr Display_clear = Deep_sleep_start.
Proof.
  intros Hk Hfk Hf. unfold setup.
  rewrite (bind_Some _ _ boot tt boot [Serial_begin 115200] eq_refl).
  rewrite (bind_Some _ _ boot tt boot
             [Display_begin OLED_I2C_ADDR; Display_clear; TempSensor_begin;
              PinMode_input_pullup BUTTON_PIN] eq_refl).
  rewrite (bind_Some _ _ boot tt boot
             [Enable_ext0_wakeup BUTTON_PIN 0;
              Enable_timer_wakeup (SLEEP_INTERVAL_SEC * 1000000)] eq_refl).
  destruct (is_EXT0 (wakeup_cause w)).
  - do 2 eexists. split; [reflexivity|reflexivity].
  - destruct (runFullCycle_stages w mode fuel boot k Hk Hfk Hf)
      as (s1 & t1 & s2 & t2 & s3 & t3 & _ & _ & _ & E & _ & _ & _ & _ & _ & _ & _ & _ & Hl).
    rewrite E. do 2 eexists. split; [reflexivity|].
    assert (Hne : t1 ++ t2 ++ t3 <> []).
    { intros Hnil. rewrite Hnil in Hl. cbn in Hl. discriminate. }
    destruct (exists_last Hne) as (l & e & Heq).
    rewrite Heq in *. rewrite last_last in Hl. subst e.
    rewrite !app_assoc. apply last_last.
Qed.

(** ** The timestamp field *)

Lemma telemetry_doc_timestamp ts m t :
  containsKey "timestamp" (telemetry_doc ts m t)
  = negb (String.length ts =? 0)%nat.
Proof.
  unfold telemetry_doc. destruct (String.length ts =? 0)%nat; reflexivity.
Qed.

Lemma length_zero_empty (x : string) :
  (String.length x =? 0)%nat = true <-> x = "".
Proof.
  destruct x; cbn; split; intros H; try reflexivity; discriminate.
Qed.

(** The bodies of two concrete cycles: trusted clock (mode 2, time service
    answering), and mode 1. *)
Lemma full_cycle_bodies_example :
  (exists s' tr,
     runFullCycle world_ok 2 12 boot = Some (tt, s', tr) /\
     ntpSynced s' = true /\
     bodies_to data_url tr =
       [[("timestamp", JString iso_stamp);
         ("soil_moisture", JFloat (read_moisture world_ok));
         ("temperature", JFloat (read_temperature world_ok))]]) /\
  (exists s' tr,
     runFullCycle world_ok 1 12 boot = Some (tt, s', tr) /\
     ntpSynced s' = false /\
     bodies_to data_url tr =
       [[("soil_moisture", JFloat (read_moisture world_ok));
         ("temperature", JFloat (read_temperature world_ok))]]).
Proof.
  split; do 2 eexists; (split; [vm_compute; reflexivity|]);
    split; reflexivity.
Qed.

(** ** Hybrid mode without network time *)

(** C8: in mode 2 (Hybrid), when every answer of the time service stays
    below the sanity threshold, the polling loop gives up after its timeout
    and [ntpSynced] is false; the telemetry bodies of that cycle are the
    bodies of the mode 1 (ServerOnly) cycle in the same world, request for
    request: moisture and temperature, no timestamp. *)
Theorem hybrid_timeout_same_payload_as_server_only w fuel k :
  wifi_connected w k = true ->
  (k < fuel)%nat ->
  (10 < fuel)%nat ->
  (forall j, ntp_time w j < 8 * 3600) ->
  exists sH trH sS trS,
    runFullCycle w 2 fuel boot = Some (tt, sH, trH) /\
    runFullCycle w 1 fuel boot = Some (tt, sS, trS) /\
    ntpSynced sH = false /\
    ntpSynced sS = false /\
    bodies_to data_url trH = bodies_to data_url trS /\
    forall doc, In doc (bodies_to data_url trH) ->
      doc = [("soil_moisture", JFloat (read_moisture w));
             ("temperature", JFloat (read_temperature w))].
Proof.
  intros Hk Hfk Hf Hntp.
  destruct (runFullCycle_stages w 2 fuel boot k Hk Hfk Hf)
    as (s1 & t1 & s2 & t2 & s3 & t3 & E1 & _ & E3 & E & Hn1 & Hj2 & Hp2 & Hn3 &
        _ & Hfail & Hb & Hdocs & _).
  destruct (runFullCycle_stages w 1 fuel boot k Hk Hfk Hf)
    as (s1' & t1' & s2' & t2' & s3' & t3' & E1' & _ & E3' & E' & _ & _ & _ & Hn3' &
        Hoff & _ & Hb' & _ & _).
  rewrite E1 in E1'. injection E1' as <- <-.
  destruct (Hoff eq_refl) as [-> ->].
  specialize (Hfail Hntp eq_refl).
  destruct Hn1 as (A & B & C). cbn [ntpSynced boot] in B.
  assert (Hsame : same_net s2 s1).
  { repeat split; congruence. }
  pose proof (agree_after_sync w fuel s2 s1 Hsame) as Hag.
  rewrite E3, E3' in Hag. destruct Hag as (_ & <- & _).
  exists s3, (t1 ++ t2 ++ t3), s3', (t1 ++ [] ++ t3).
  split; [exact E|]. split; [exact E'|].
  split; [congruence|]. split; [congruence|].
  split; [congruence|].
  intros doc Hin. rewrite Hb in Hin. rewrite Forall_forall in Hdocs.
  destruct (Hdocs doc Hin) as (j & ->). rewrite Hfail. reflexivity.
Qed.

Lemma hybrid_timeout_same_payload_as_server_only_witness :
  exists sH trH sS trS,
    runFullCycle world_no_ntp 2 12 boot = Some (tt, sH, trH) /\
    runFullCycle world_no_ntp 1 12 boot = Some (tt, sS, trS) /\
    ntpSynced sH = false /\
    ntpSynced sS = false /\
    bodies_to data_url trH = bodies_to data_url trS /\
    forall doc, In doc (bodies_to data_url trH) ->
      doc = [("soil_moisture", JFloat (read_moisture world_no_ntp));
             ("temperature", JFloat (read_temperature world_no_ntp))].
Proof.
  apply (hybrid_timeout_same_payload_as_server_only world_no_ntp 12 0).
  - reflexivity.
  - lia.
  - lia.
  - intros j. reflexivity.
Defined.

(** The two cycles of the witness do send one body each. *)
Lemma hybrid_timeout_bodies_example :
  exists s' tr,
    runFullCycle world_no_ntp 2 12 boot = Some (tt, s', tr) /\
    pauses tr = [500; 500; 500; 500; 500; 500; 500; 500; 500; 500; 2000] /\
    bodies_to data_url tr =
      [[("soil_moisture", JFloat (read_moisture world_no_ntp));
        ("temperature", JFloat (read_temperature world_no_ntp))]].
Proof.
  do 2 eexists. split; [vm_compute; reflexivity|]. split; reflexivity.
Qed.

(** * Further properties of the sketch *)

(** ** The clamping of [readSensors] *)

Lemma read_moisture_of_count w :
  read_moisture w = moisture_of_count (wrap16 (analog_raw w)).
Proof. reflexivity. Qed.

(** The counts 0 to 4095 of the 12-bit converter, by evaluation. *)
Lemma moisture_of_every_count : forallb moisture_row_ok (seq 0 16) = true.
Proof. vm_compute. reflexivity. Qed.

(** Above 4095 the numerator [4095 - raw] is negative, and the sign is
    kept by the rounding of the product and of the quotient: the clamp
    returns a zero. *)
Lemma iter_pos_keeps {A : Type} (P : A -> Prop) (f : A -> A) :
  (forall x, P x -> P (f x)) -> forall p x, P x -> P (iter_pos f p x).
Proof.
  intros Hf. induction p as [p IH|p IH|]; intros x Hx; cbn [iter_pos].
  - apply IH, IH, Hf, Hx.
  - apply IH, IH, Hx.
  - apply Hf, Hx.
Qed.

Lemma shr_1_nonneg mrs : 0 <= shr_m mrs -> 0 <= shr_m (shr_1 mrs).
Proof.
  destruct mrs as [m r s]. cbn [shr_m]. intros H. unfold shr_1.
  destruct m as [|p|p]; [cbn; lia| |lia].
  destruct p; cbn; lia.
Qed.

Lemma shr_nonneg mrs e n : 0 <= shr_m mrs -> 0 <= shr_m (fst (shr mrs e n)).
Proof.
  intros H. unfold shr. destruct n as [|p|p]; cbn [fst]; try exact H.
  apply (iter_pos_keeps (fun x => 0 <= shr_m x)); [apply shr_1_nonneg|exact H].
Qed.

Lemma shr_fexp_nonneg prec emax m e l :
  0 <= m -> 0 <= shr_m (fst (shr_fexp prec emax m e l)).
Proof.
  intros H. unfold shr_fexp. apply shr_nonneg.
  destruct l as [|[| |]]; exact H.
Qed.

Lemma round_nearest_even_nonneg m l : 0 <= m -> 0 <= round_nearest_even m l.
Proof.
  intros H. unfold round_nearest_even.
  destruct l as [|[| |]]; try exact H; [destruct (Z.even m)|]; lia.
Qed.

Lemma binary_round_aux_signed prec emax s m e l :
  0 <= m -> signed s (binary_round_aux prec emax s m e l).
Proof.
  intros H. unfold binary_round_aux.
  pose proof (shr_fexp_nonneg prec emax m e l H) as H1.
  destruct (shr_fexp prec emax m e l) as [mrs' e'].
  cbn [fst] in H1.
  pose proof (shr_fexp_nonneg prec emax _ e' loc_Exact
                (round_nearest_even_nonneg _ (loc_of_shr_record mrs') H1)) as H2.
  destruct (shr_fexp prec emax
              (round_nearest_even (shr_m mrs') (loc_of_shr_record mrs')) e' loc_Exact)
    as [mrs'' e''].
  cbn [fst] in H2.
  destruct (shr_m mrs'') as [|p|p]; [left; reflexivity| |lia].
  destruct (e'' <=? emax - prec); right; [left; eauto|right; reflexivity].
Qed.

Lemma SFdiv_core_quotient_nonneg prec emax m1 e1 m2 e2 :
  0 <= fst (fst (SFdiv_core_binary prec emax (Zpos m1) e1 (Zpos m2) e2)).
Proof.
  unfold SFdiv_core_binary.
  set (s := _ - _ - Z.min _ _).
  set (m' := match s with
             | Zpos _ => Z.shiftl (Zpos m1) s
             | Z0 => Zpos m1
             | Zneg _ => 0
             end).
  assert (Hm : 0 <= m').
  { unfold m'. destruct s; [lia| |lia]. apply Z.shiftl_nonneg. lia. }
  pose proof (Z_div_mod m' (Zpos m2) ltac:(lia)) as Hd.
  destruct (Z.div_eucl m' (Zpos m2)) as [q r]. cbn [fst].
  destruct Hd as [Hq Hr]. nia.
Qed.

Lemma of_Z_neg_signed p : signed true (F64.of_Z (Zneg p)).
Proof.
  unfold F64.of_Z, binary_normalize, binary_round.
  destruct (shl_align _ _ _) as [mz ez].
  apply binary_round_aux_signed. lia.
Qed.

Lemma mul_signed x y my ey :
  y = S754_finite false my ey ->
  signed true x -> signed true (F64.mul x y).
Proof.
  intros -> [->|[(m & e & ->)| ->]]; unfold F64.mul, SFmul.
  - left. reflexivity.
  - apply binary_round_aux_signed. lia.
  - right. right. reflexivity.
Qed.

Lemma div_signed x y my ey :
  y = S754_finite false my ey ->
  signed true x -> signed true (F64.div x y).
Proof.
  intros -> [->|[(m & e & ->)| ->]]; unfold F64.div, SFdiv.
  - left. reflexivity.
  - pose proof (SFdiv_core_quotient_nonneg F64.prec F64.emax m e my ey) as H.
    destruct (SFdiv_core_binary F64.prec F64.emax (Zpos m) e (Zpos my) ey)
      as [[mz ez] lz].
    cbn [fst] in H. apply binary_round_aux_signed. exact H.
  - right. right. reflexivity.
Qed.

Lemma moisture_above_range raw :
  4095 < raw -> moisture_in_bounds (moisture_of_count raw) = true.
Proof.
  intros H. unfold moisture_of_count.
  destruct (4095 - raw) as [|p|p] eqn:E; [lia|lia|].
  pose proof (div_signed _ (F64.of_Z 4095) _ _ eq_refl
                (mul_signed _ (F64.of_Z 100) _ _ eq_refl (of_Z_neg_signed p)))
    as Hs.
  destruct Hs as [->|[(m & e & ->)| ->]]; reflexivity.
Qed.

Lemma moisture_in_range raw :
  0 <= raw <= 4095 -> moisture_in_bounds (moisture_of_count raw) = true.
Proof.
  intros Hr.
  assert (Hq : 0 <= raw / 256 < 16).
  { split; [apply Z.div_pos; lia|apply Z.div_lt_upper_bound; lia]. }
  assert (Hm : 0 <= raw mod 256 < 256) by (apply Z.mod_pos_bound; lia).
  pose proof moisture_of_every_count as Hall.
  rewrite forallb_forall in Hall.
  specialize (Hall (Z.to_nat (raw / 256))).
  assert (Hin : In (Z.to_nat (raw / 256)) (seq 0 16)).
  { apply in_seq. change (0 + 16)%nat with (Z.to_nat 16). split; [lia|].
    apply Z2Nat.inj_lt; lia. }
  specialize (Hall Hin). unfold moisture_row_ok in Hall.
  rewrite forallb_forall in Hall.
  specialize (Hall (Z.to_nat (raw mod 256))).
  assert (Hin' : In (Z.to_nat (raw mod 256)) (seq 0 256)).
  { apply in_seq. change (0 + 256)%nat with (Z.to_nat 256). split; [lia|].
    apply Z2Nat.inj_lt; lia. }
  specialize (Hall Hin').
  rewrite !Z2Nat.id in Hall by lia.
  rewrite <- Z.div_mod in Hall by lia.
  exact Hall.
Qed.

Lemma read_moisture_checked w :
  SFltb (read_moisture w) (F32.of_Z 0) = false /\
  SFltb (F32.of_Z 100) (read_moisture w) = false /\
  read_moisture w <> S754_nan.
Proof.
  rewrite read_moisture_of_count.
  set (z := wrap16 (analog_raw w)).
  assert (Hr : 0 <= z < 65536).
  { unfold z, wrap16. change (2 ^ 16) with 65536. apply Z.mod_pos_bound. lia. }
  assert (Hall : moisture_in_bounds (moisture_of_count z) = true).
  { destruct (Z_le_gt_dec z 4095) as [Hle|Hgt].
    - apply moisture_in_range. lia.
    - apply moisture_above_range. lia. }
  unfold moisture_in_bounds in Hall.
  apply andb_true_iff in Hall. destruct Hall as [Hall Hnan].
  apply andb_true_iff in Hall. destruct Hall as [Hlo Hhi].
  apply negb_true_iff in Hlo. apply negb_true_iff in Hhi.
  split; [exact Hlo|]. split; [exact Hhi|].
  intros E. rewrite E in Hnan. discriminate.
Qed.

(** X4: for every ADC count [analogRead] can return, the moisture of
    [readSensors] is a number that the gate of [sendData] accepts: it is
    not a NaN, not below 0 and not above 100.  In a cycle only the
    temperature can make the gate reject a reading. *)
Theorem moisture_reading_in_bounds w :
  SFltb (read_moisture w) (F32.of_Z 0) = false /\
  SFltb (F32.of_Z 100) (read_moisture w) = false /\
  read_moisture w <> S754_nan /\
  out_of_range (read_moisture w) (read_temperature w)
  = SFltb (read_temperature w) (F32.of_Z (-40))
    || SFltb (F32.of_Z 85) (read_temperature w).
Proof.
  destruct (read_moisture_checked w) as (Hlo & Hhi & Hnan).
  split; [exact Hlo|]. split; [exact Hhi|]. split; [exact Hnan|].
  unfold out_of_range. rewrite Hlo, Hhi. reflexivity.
Qed.

(** ** The retry loop, case by case *)

(** The run of [sendDataWithRetry] from any state: the reading is rejected
    by the gate three times, or the first, second or third request
    succeeds, or all three fail. *)
Lemma sendDataWithRetry_shape w fuel m t s :
  (3 < fuel)%nat ->
  exists o s' tr n,
    sendDataWithRetry w fuel m t s = Some (o, s', tr) /\
    (network_calls tr <= 3)%nat /\
    (n <= 3)%nat /\
    pauses tr = firstn n [1000; 2000; 4000] /\
    (o = Abandoned -> n = 3%nat) /\
    (o = Sent -> S n = network_calls tr) /\
    (o = Sent <->
     out_of_range m t = false /\
     exists k, (k < 3)%nat /\
       http_success (resp_code (http_answer w (n_post s + k))) = true) /\
    Forall (eq (data_headers (jwtToken s))) (headers_to data_url tr) /\
    n_post s' = (n_post s + network_calls tr)%nat /\
    jwtToken s' = jwtToken s /\
    ntpSynced s' = ntpSynced s /\
    (out_of_range m t = false -> (1 <= network_calls tr)%nat) /\
    List.length (headers_to data_url tr) = network_calls tr /\
    bodies_to AUTH_URL tr = [].
Proof.
  intros Hf.
  destruct fuel as [|[|[|[|f]]]]; try lia.
  unfold sendDataWithRetry.
  destruct (out_of_range m t) eqn:Hr.
  { retry_rejected. retry_rejected. retry_rejected.
    rewrite retry_exit by (unfold MAX_RETRIES; lia).
    do 3 eexists. exists 3%nat. split; [reflexivity|].
    split; [cbn; lia|]. split; [lia|]. split; [reflexivity|].
    split; [reflexivity|]. split; [discriminate|].
    split; [split; [discriminate|intros [Hx _]; discriminate]|].
    split; [constructor|]. split; [cbn; lia|].
    split; [reflexivity|]. split; [reflexivity|]. split; [discriminate|].
    split; reflexivity. }
  destruct (http_success (resp_code (http_answer w (n_post s)))) eqn:H0.
  { retry_succeeded H0.
    do 3 eexists. exists 0%nat. split; [reflexivity|].
    split; [cbn; lia|]. split; [lia|]. split; [reflexivity|].
    split; [discriminate|]. split; [reflexivity|].
    split.
    { split; [|reflexivity]. intros _. split; [reflexivity|].
      exists 0%nat. rewrite Nat.add_0_r. split; [lia|exact H0]. }
    split; [cbn [app headers_to]; rewrite String.eqb_refl; repeat constructor|].
    split; [cbn; lia|]. split; [reflexivity|]. split; [reflexivity|].
    split; [intros _; cbn; lia|].
    split; [cbn [app headers_to]; rewrite String.eqb_refl; reflexivity|].
    reflexivity. }
  retry_failed H0.
  destruct (http_success (resp_code (http_answer w (S (n_post s))))) eqn:H1.
  { retry_succeeded H1.
    do 3 eexists. exists 1%nat. split; [reflexivity|].
    split; [cbn; lia|]. split; [lia|]. split; [reflexivity|].
    split; [discriminate|]. split; [reflexivity|].
    split.
    { split; [|reflexivity]. intros _. split; [reflexivity|].
      exists 1%nat. rewrite Nat.add_1_r. split; [lia|exact H1]. }
    split; [cbn [app headers_to]; rewrite String.eqb_refl; repeat constructor|].
    split; [cbn; lia|]. split; [reflexivity|]. split; [reflexivity|].
    split; [intros _; cbn; lia|].
    split; [cbn [app headers_to]; rewrite String.eqb_refl; reflexivity|].
    reflexivity. }
  retry_failed H1.
  destruct (http_success (resp_code (http_answer w (S (S (n_post s)))))) eqn:H2.
  { retry_succeeded H2.
    do 3 eexists. exists 2%nat. split; [reflexivity|].
    split; [cbn; lia|]. split; [lia|]. split; [reflexivity|].
    split; [discriminate|]. split; [reflexivity|].
    split.
    { split; [|reflexivity]. intros _. split; [reflexivity|].
      exists 2%nat. split; [lia|].
      replace (n_post s + 2)%nat with (S (S (n_post s))) by lia. exact H2. }
    split; [cbn [app headers_to]; rewrite String.eqb_refl; repeat constructor|].
    split; [cbn; lia|]. split; [reflexivity|]. split; [reflexivity|].
    split; [intros _; cbn; lia|].
    split; [cbn [app headers_to]; rewrite String.eqb_refl; reflexivity|].
    reflexivity. }
  retry_failed H2.
  rewrite retry_exit by (unfold MAX_RETRIES; lia).
  do 3 eexists. exists 3%nat. split; [reflexivity|].
  split; [cbn; lia|]. split; [lia|]. split; [reflexivity|].
  split; [reflexivity|]. split; [discriminate|].
  split.
  { split; [discriminate|]. intros [_ (k & Hk & Hs)].
    destruct k as [|[|[|k]]]; [| | |lia].
    - rewrite Nat.add_0_r, H0 in Hs. discriminate.
    - rewrite Nat.add_1_r, H1 in Hs. discriminate.
    - replace (n_post s + 2)%nat with (S (S (n_post s))) in Hs by lia.
      rewrite H2 in Hs. discriminate. }
  split; [cbn [app headers_to]; rewrite String.eqb_refl; repeat constructor|].
  split; [cbn; lia|]. split; [reflexivity|]. split; [reflexivity|].
  split; [intros _; cbn; lia|].
  split; [cbn [app headers_to]; rewrite String.eqb_refl; reflexivity|].
  reflexivity.
Qed.

(** X6: [sendDataWithRetry] leaves through its [return] (outcome [Sent])
    exactly when the reading passes the gate and one of the next three
    answers of the collector is 200 or 201. *)
Theorem delivery_sent_iff_an_answer_succeeds w fuel m t s :
  (3 < fuel)%nat ->
  exists o s' tr,
    sendDataWithRetry w fuel m t s = Some (o, s', tr) /\
    (o = Sent <->
     out_of_range m t = false /\
     exists k, (k < 3)%nat /\
       http_success (resp_code (http_answer w (n_post s + k))) = true).
Proof.
  intros Hf.
  destruct (sendDataWithRetry_shape w fuel m t s Hf)
    as (o & s' & tr & n & E & _ & _ & _ & _ & _ & Hiff & _).
  exists o, s', tr. split; [exact E|exact Hiff].
Qed.

Lemma delivery_sent_iff_an_answer_succeeds_witness :
  exists o s' tr,
    sendDataWithRetry world_auth_fails 4 moisture_45 temperature_22 boot
    = Some (o, s', tr) /\
    (o = Sent <->
     out_of_range moisture_45 temperature_22 = false /\
     exists k, (k < 3)%nat /\
       http_success
         (resp_code (http_answer world_auth_fails (n_post boot + k))) = true).
Proof.
  apply (delivery_sent_iff_an_answer_succeeds world_auth_fails 4
           moisture_45 temperature_22 boot).
  lia.
Defined.

(** X7: whatever the collector answers, [sendDataWithRetry] makes at most
    three requests and its pauses are the first [n] of 1000, 2000 and
    4000 ms, never more than 7000 ms in all; a delivery that ends [Sent]
    on its request number [n + 1] has paused [n] times, one that ends
    [Abandoned] has paused three times. *)
Theorem delivery_requests_and_pauses_bounded w fuel m t s :
  (3 < fuel)%nat ->
  exists o s' tr n,
    sendDataWithRetry w fuel m t s = Some (o, s', tr) /\
    (network_calls tr <= 3)%nat /\
    (n <= 3)%nat /\
    pauses tr = firstn n [1000; 2000; 4000] /\
    total_pause tr <= 7000 /\
    (o = Sent -> network_calls tr = S n) /\
    (o = Abandoned -> n = 3%nat) /\
    n_post s' = (n_post s + network_calls tr)%nat.
Proof.
  intros Hf.
  destruct (sendDataWithRetry_shape w fuel m t s Hf)
    as (o & s' & tr & n & E & Hc & Hn & Hp & Ha & Hs & _ & _ & Hpost & _).
  exists o, s', tr, n. split; [exact E|]. split; [exact Hc|].
  split; [exact Hn|]. split; [exact Hp|].
  split.
  { unfold total_pause. rewrite Hp.
    destruct n as [|[|[|[|n]]]]; cbn; lia. }
  split; [intros Ho; symmetry; exact (Hs Ho)|]. split; [exact Ha|exact Hpost].
Qed.

Lemma delivery_requests_and_pauses_bounded_witness :
  exists o s' tr n,
    sendDataWithRetry world_auth_fails 4 moisture_45 temperature_22 boot
    = Some (o, s', tr) /\
    (network_calls tr <= 3)%nat /\
    (n <= 3)%nat /\
    pauses tr = firstn n [1000; 2000; 4000] /\
    total_pause tr <= 7000 /\
    (o = Sent -> network_calls tr = S n) /\
    (o = Abandoned -> n = 3%nat) /\
    n_post s' = (n_post boot + network_calls tr)%nat.
Proof.
  apply (delivery_requests_and_pauses_bounded world_auth_fails 4
           moisture_45 temperature_22 boot).
  lia.
Defined.

(** ** The two polling loops *)

Lemma pauses_app t1 t2 : pauses (t1 ++ t2) = pauses t1 ++ pauses t2.
Proof.
  induction t1 as [|e t1 IH]; [reflexivity|].
  destruct e; cbn [app pauses]; try exact IH. f_equal. exact IH.
Qed.

Lemma pauses_poll_turns n : pauses (poll_turns n) = repeat 500 n.
Proof. induction n as [|n IH]; [reflexivity|]. cbn. f_equal. exact IH. Qed.

Lemma total_pause_repeat n : fold_right Z.add 0 (repeat 500 n) = 500 * Z.of_nat n.
Proof.
  induction n as [|n IH]; [reflexivity|].
  cbn [repeat fold_right]. rewrite IH. lia.
Qed.

Lemma network_calls_app t1 t2 :
  network_calls (t1 ++ t2) = (network_calls t1 + network_calls t2)%nat.
Proof. unfold network_calls. rewrite filter_app, length_app. reflexivity. Qed.

Lemma network_calls_poll_turns n : network_calls (poll_turns n) = 0%nat.
Proof. induction n as [|n IH]; [reflexivity|]. exact IH. Qed.

Lemma headers_to_app url t1 t2 :
  headers_to url (t1 ++ t2) = headers_to url t1 ++ headers_to url t2.
Proof.
  induction t1 as [|e t1 IH]; [reflexivity|].
  destruct e; cbn [app headers_to]; try exact IH.
  destruct (String.eqb url0 url); [cbn [app]; f_equal|]; exact IH.
Qed.

Lemma headers_to_poll_turns url n : headers_to url (poll_turns n) = [].
Proof. induction n as [|n IH]; [reflexivity|]. exact IH. Qed.

Lemma bodies_to_poll_turns url n : bodies_to url (poll_turns n) = [].
Proof. induction n as [|n IH]; [reflexivity|]. exact IH. Qed.

Lemma displayed_poll_turns n : displayed (poll_turns n) = [].
Proof. induction n as [|n IH]; [reflexivity|]. exact IH. Qed.

(** The WiFi loop turns once for every poll that is not connected. *)
Lemma connectWiFi_loop_first w k :
  forall fuel s,
    (forall i, (i < k)%nat -> wifi_connected w (n_status s + i) = false) ->
    wifi_connected w (n_status s + k) = true ->
    (k < fuel)%nat ->
    exists s',
      connectWiFi_loop w fuel s = Some (tt, s', poll_turns k) /\
      same_net s' s /\
      n_status s' = S (n_status s + k) /\
      n_time s' = n_time s.
Proof.
  induction k as [|k IH]; intros fuel s Hno Hk Hf;
    (destruct fuel as [|f]; [lia|]); cbn [connectWiFi_loop];
    unfold bind at 1; cbn [WiFi_status].
  - rewrite Nat.add_0_r in Hk. rewrite Hk. cbn [ret app poll_turns].
    eexists. split; [reflexivity|]. split; [repeat split|].
    cbn [n_status n_time]. split; [lia|reflexivity].
  - pose proof (Hno 0%nat ltac:(lia)) as H0. rewrite Nat.add_0_r in H0.
    rewrite H0.
    unfold bind at 1. cbn [delay]. unfold bind at 1. cbn [emit].
    match goal with
    | |- context [connectWiFi_loop w f ?st] =>
        destruct (IH f st) as (s' & E & (A & B & C) & Hs & Ht)
    end.
    + intros i Hi. cbn [n_status advance].
      replace (S (n_status s) + i)%nat with (n_status s + S i)%nat by lia.
      apply Hno. lia.
    + cbn [n_status advance]. rewrite <- Hk. f_equal. lia.
    + lia.
    + rewrite E. eexists. split; [reflexivity|].
      split; [split; [exact A|split; [exact B|exact C]]|].
      cbn [n_status n_time advance] in Hs, Ht. split; [lia|exact Ht].
Qed.

Lemma connectWiFi_run w fuel s k :
  (forall i, (i < k)%nat -> wifi_connected w (n_status s + i) = false) ->
  wifi_connected w (n_status s + k) = true ->
  (k < fuel)%nat ->
  exists s',
    connectWiFi w fuel s =
    Some (tt, s',
          [WiFi_begin WIFI_SSID WIFI_PASSWORD; Serial_print "Connecting to WiFi"]
          ++ poll_turns k ++ [Serial_print " Connected"]) /\
    same_net s' s /\
    n_status s' = S (n_status s + k).
Proof.
  intros Hno Hk Hf. unfold connectWiFi.
  rewrite (bind_Some _ _ s tt s [WiFi_begin WIFI_SSID WIFI_PASSWORD] eq_refl).
  rewrite (bind_Some _ _ s tt s [Serial_print "Connecting to WiFi"] eq_refl).
  destruct (connectWiFi_loop_first w k fuel s Hno Hk Hf)
    as (s' & E & Hn & Hs & _).
  rewrite (bind_Some _ _ _ _ _ _ E). cbn [emit].
  exists s'. split; [reflexivity|]. split; [exact Hn|exact Hs].
Qed.

(** X2: when the first [k] polls of [WiFi.status()] are not connected and
    the next one is, [connectWiFi] returns after exactly [k] pauses of
    500 ms, [500 * k] ms in all, without any HTTP request and without
    touching the token or the trust flag. *)
Theorem connectWiFi_pauses_once_per_failed_poll w fuel s k :
  (forall i, (i < k)%nat -> wifi_connected w (n_status s + i) = false) ->
  wifi_connected w (n_status s + k) = true ->
  (k < fuel)%nat ->
  exists s',
    connectWiFi w fuel s =
    Some (tt, s',
          [WiFi_begin WIFI_SSID WIFI_PASSWORD; Serial_print "Connecting to WiFi"]
          ++ poll_turns k ++ [Serial_print " Connected"]) /\
    pauses (poll_turns k) = repeat 500 k /\
    total_pause
      ([WiFi_begin WIFI_SSID WIFI_PASSWORD; Serial_print "Connecting to WiFi"]
       ++ poll_turns k ++ [Serial_print " Connected"]) = 500 * Z.of_nat k /\
    network_calls
      ([WiFi_begin WIFI_SSID WIFI_PASSWORD; Serial_print "Connecting to WiFi"]
       ++ poll_turns k ++ [Serial_print " Connected"]) = 0%nat /\
    same_net s' s /\
    n_status s' = S (n_status s + k).
Proof.
  intros Hno Hk Hf.
  destruct (connectWiFi_run w fuel s k Hno Hk Hf) as (s' & E & Hn & Hs).
  exists s'. split; [exact E|].
  split; [apply pauses_poll_turns|].
  split.
  { unfold total_pause. cbn [app pauses]. rewrite pauses_app, pauses_poll_turns.
    cbn [pauses]. rewrite app_nil_r. apply total_pause_repeat. }
  split.
  { cbn [app]. unfold network_calls. cbn [filter is_post].
    fold (network_calls (poll_turns k ++ [Serial_print " Connected"])).
    rewrite network_calls_app, network_calls_poll_turns. reflexivity. }
  split; [exact Hn|exact Hs].
Qed.

Lemma connectWiFi_pauses_once_per_failed_poll_witness :
  exists s',
    connectWiFi world_slow_wifi 4 boot =
    Some (tt, s',
          [WiFi_begin WIFI_SSID WIFI_PASSWORD; Serial_print "Connecting to WiFi"]
          ++ poll_turns 3 ++ [Serial_print " Connected"]) /\
    pauses (poll_turns 3) = repeat 500 3 /\
    total_pause
      ([WiFi_begin WIFI_SSID WIFI_PASSWORD; Serial_print "Connecting to WiFi"]
       ++ poll_turns 3 ++ [Serial_print " Connected"]) = 500 * Z.of_nat 3 /\
    network_calls
      ([WiFi_begin WIFI_SSID WIFI_PASSWORD; Serial_print "Connecting to WiFi"]
       ++ poll_turns 3 ++ [Serial_print " Connected"]) = 0%nat /\
    same_net s' boot /\
    n_status s' = S (n_status boot + 3).
Proof.
  apply (connectWiFi_pauses_once_per_failed_poll
           world_slow_wifi 4 boot 3).
  - intros i Hi. destruct i as [|[|[|i]]]; [reflexivity|reflexivity|reflexivity|lia].
  - reflexivity.
  - lia.
Defined.

(** The time-sync loop stops at the first plausible reading of the clock,
    or after ten turns. *)
Lemma syncTime_loop_shape w start :
  forall fuel now s j,
    0 <= j <= 10 ->
    wrap32 (millis s - start) = 500 * j ->
    (Z.to_nat (10 - j) < fuel)%nat ->
    exists now' s' n,
      syncTime_loop w fuel start now s = Some (now', s', poll_turns n) /\
      (n <= Z.to_nat (10 - j))%nat /\
      same_net s' s /\
      (time_is_plausible now' = true <->
       time_is_plausible now = true \/
       exists i, (i < Z.to_nat (10 - j))%nat /\
                 time_is_plausible (ntp_time w (n_time s + i)) = true).
Proof.
  induction fuel as [|f IH]; intros now s j Hj Hm Hf; [lia|].
  cbn [syncTime_loop]. unfold bind at 1. cbn [get_millis].
  destruct ((now <? 8 * 3600) && (wrap32 (millis s - start) <? 5000)) eqn:Hc.
  - apply andb_true_iff in Hc. destruct Hc as [Hnow Hc].
    apply Z.ltb_lt in Hc. rewrite Hm in Hc. apply Z.ltb_lt in Hnow.
    unfold bind at 1. cbn [delay]. unfold bind at 1. cbn [emit].
    unfold bind at 1. cbn [time_now].
    match goal with
    | |- context [syncTime_loop w f start ?n ?st] =>
        destruct (IH n st (j + 1)) as (now' & s' & k & E & Hk & (A & B & C) & Hiff)
    end.
    + lia.
    + cbn [millis advance]. apply wrap32_elapsed; [exact Hm|lia].
    + lia.
    + rewrite E. exists now', s', (S k). split; [reflexivity|].
      split; [lia|].
      split; [split; [exact A|split; [exact B|exact C]]|].
      cbn [n_time advance] in Hiff. rewrite Hiff. split.
      * intros [H0|(i & Hi & Hp)]; right.
        { exists 0%nat. rewrite Nat.add_0_r. split; [lia|exact H0]. }
        { exists (S i). split; [lia|].
          replace (n_time s + S i)%nat with (S (n_time s) + i)%nat by lia.
          exact Hp. }
      * intros [H0|(i & Hi & Hp)].
        { unfold time_is_plausible in H0. apply Z.leb_le in H0. lia. }
        { destruct i as [|i].
          - left. rewrite Nat.add_0_r in Hp. exact Hp.
          - right. exists i. split; [lia|].
            replace (S (n_time s) + i)%nat with (n_time s + S i)%nat by lia.
            exact Hp. }
  - cbn [ret]. exists now, s, 0%nat. split; [reflexivity|].
    split; [lia|]. split; [repeat split|].
    split; [auto|]. intros [H0|(i & Hi & Hp)]; [exact H0|].
    apply andb_false_iff in Hc. destruct Hc as [Hc|Hc].
    + apply Z.ltb_ge in Hc. unfold time_is_plausible. apply Z.leb_le. exact Hc.
    + apply Z.ltb_ge in Hc. rewrite Hm in Hc. lia.
Qed.

Lemma syncTimeIfNeeded_on w mode fuel s :
  mode = 0 \/ mode = 2 ->
  (10 < fuel)%nat ->
  exists s' n,
    syncTimeIfNeeded w mode fuel s =
    Some (tt, s',
          [ConfigTime "pool.ntp.org"; Serial_print "Sync NTP"]
          ++ poll_turns n
          ++ [Serial_print (if ntpSynced s' then " OK" else " Failed")]) /\
    (n <= 10)%nat /\
    (ntpSynced s' = true <->
     exists i, (i <= 10)%nat /\ 8 * 3600 <= ntp_time w (n_time s + i)) /\
    jwtToken s' = jwtToken s /\
    n_post s' = n_post s.
Proof.
  intros Hmode Hf. unfold syncTimeIfNeeded.
  assert (Hm : (mode =? 0) || (mode =? 2) = true).
  { destruct Hmode as [-> | ->]; reflexivity. }
  rewrite Hm.
  unfold bind at 1. cbn [emit]. unfold bind at 1. cbn [emit].
  unfold bind at 1. cbn [time_now]. unfold bind at 1. cbn [get_millis millis].
  unfold bind at 1.
  match goal with
  | |- context [syncTime_loop w fuel ?st ?n ?s0] =>
      destruct (syncTime_loop_shape w st fuel n s0 0)
        as (now' & s' & k & E & Hk & (A & B & C) & Hiff)
  end.
  - lia.
  - cbn [millis]. rewrite Z.sub_diag. reflexivity.
  - change (Z.to_nat (10 - 0)) with 10%nat. lia.
  - rewrite E. unfold bind at 1. cbn [set_ntpSynced]. cbn [emit].
    change (Z.to_nat (10 - 0)) with 10%nat in Hk, Hiff.
    cbn [n_time] in Hiff.
    exists (mkState (jwtToken s') (8 * 3600 <=? now') (millis s')
              (n_status s') (n_time s') (n_post s')), k.
    split; [reflexivity|].
    split; [exact Hk|].
    split.
    { cbn [ntpSynced]. fold (time_is_plausible now'). rewrite Hiff. split.
      - intros [H0|(i & Hi & Hp)].
        + exists 0%nat. rewrite Nat.add_0_r. split; [lia|].
          apply Z.leb_le. exact H0.
        + exists (S i). split; [lia|].
          replace (n_time s + S i)%nat with (S (n_time s) + i)%nat by lia.
          apply Z.leb_le. exact Hp.
      - intros (i & Hi & Hp). destruct i as [|i].
        + left. rewrite Nat.add_0_r in Hp. apply Z.leb_le. exact Hp.
        + right. exists i. split; [lia|].
          replace (S (n_time s) + i)%nat with (n_time s + S i)%nat by lia.
          apply Z.leb_le. exact Hp. }
    split; [exact A|exact C].
Qed.

(** X3: in the modes 0 and 2 [syncTimeIfNeeded] reads the clock at most
    eleven times, pausing 500 ms between two readings (ten pauses at most,
    5000 ms), and sets [ntpSynced] exactly when one of these eleven
    readings is at or past [8*3600]; the token and the request count are
    left alone. *)
Theorem syncTimeIfNeeded_trust_and_bound w mode fuel s :
  mode = 0 \/ mode = 2 ->
  (10 < fuel)%nat ->
  exists s' n,
    syncTimeIfNeeded w mode fuel s =
    Some (tt, s',
          [ConfigTime "pool.ntp.org"; Serial_print "Sync NTP"]
          ++ poll_turns n
          ++ [Serial_print (if ntpSynced s' then " OK" else " Failed")]) /\
    (n <= 10)%nat /\
    pauses (poll_turns n) = repeat 500 n /\
    (ntpSynced s' = true <->
     exists i, (i <= 10)%nat /\ 8 * 3600 <= ntp_time w (n_time s + i)) /\
    jwtToken s' = jwtToken s /\
    n_post s' = n_post s.
Proof.
  intros Hmode Hf.
  destruct (syncTimeIfNeeded_on w mode fuel s Hmode Hf)
    as (s' & n & E & Hn & Hiff & Hj & Hp).
  exists s', n. split; [exact E|]. split; [exact Hn|].
  split; [apply pauses_poll_turns|]. split; [exact Hiff|].
  split; [exact Hj|exact Hp].
Qed.

Lemma syncTimeIfNeeded_trust_and_bound_witness :
  exists s' n,
    syncTimeIfNeeded world_late_ntp TIME_SYNC_MODE 11 boot =
    Some (tt, s',
          [ConfigTime "pool.ntp.org"; Serial_print "Sync NTP"]
          ++ poll_turns n
          ++ [Serial_print (if ntpSynced s' then " OK" else " Failed")]) /\
    (n <= 10)%nat /\
    pauses (poll_turns n) = repeat 500 n /\
    (ntpSynced s' = true <->
     exists i, (i <= 10)%nat /\
               8 * 3600 <= ntp_time world_late_ntp (n_time boot + i)) /\
    jwtToken s' = jwtToken boot /\
    n_post s' = n_post boot.
Proof.
  apply (syncTimeIfNeeded_trust_and_bound world_late_ntp TIME_SYNC_MODE 11 boot).
  - right. reflexivity.
  - lia.
Defined.

(** The run of the witness: two pauses, then the clock is set. *)
Lemma syncTimeIfNeeded_late_ntp_example :
  exists s',
    syncTimeIfNeeded world_late_ntp TIME_SYNC_MODE 11 boot =
    Some (tt, s',
          [ConfigTime "pool.ntp.org"; Serial_print "Sync NTP"]
          ++ poll_turns 2 ++ [Serial_print " OK"]) /\
    ntpSynced s' = true /\ millis s' = 1000.
Proof. eexists. split; [vm_compute; reflexivity|]. split; reflexivity. Qed.

(** ** A full cycle, end to end *)

Lemma first_true (f : nat -> bool) :
  forall k, f k = true ->
    exists a, (a <= k)%nat /\ f a = true /\
              forall i, (i < a)%nat -> f i = false.
Proof.
  intros k. revert f. induction k as [|k IH]; intros f Hk.
  - exists 0%nat. split; [lia|]. split; [exact Hk|]. intros i Hi. lia.
  - destruct (f 0%nat) eqn:H0.
    + exists 0%nat. split; [lia|]. split; [exact H0|]. intros i Hi. lia.
    + destruct (IH (fun i => f (S i)) Hk) as (a & Ha & Hfa & Hno).
      exists (S a). split; [lia|]. split; [exact Hfa|].
      intros [|i] Hi; [exact H0|]. apply Hno. lia.
Qed.

Lemma total_pause_app t1 t2 :
  total_pause (t1 ++ t2) = total_pause t1 + total_pause t2.
Proof.
  unfold total_pause. rewrite pauses_app.
  induction (pauses t1) as [|z l IH]; [reflexivity|].
  cbn [app fold_right]. rewrite IH. lia.
Qed.

(** [syncTimeIfNeeded] in any mode: at most ten pauses, nothing sent,
    nothing displayed. *)
Lemma syncTimeIfNeeded_run w mode fuel s :
  (10 < fuel)%nat ->
  exists s' tr b,
    syncTimeIfNeeded w mode fuel s = Some (tt, s', tr) /\
    (b <= 10)%nat /\
    pauses tr = repeat 500 b /\
    network_calls tr = 0%nat /\
    (forall url, headers_to url tr = []) /\
    (forall url, bodies_to url tr = []) /\
    displayed tr = [] /\
    jwtToken s' = jwtToken s /\
    n_post s' = n_post s.
Proof.
  intros Hf.
  destruct ((mode =? 0) || (mode =? 2)) eqn:Hm.
  - assert (Hmode : mode = 0 \/ mode = 2).
    { apply orb_true_iff in Hm. destruct Hm as [H|H]; apply Z.eqb_eq in H; auto. }
    destruct (syncTimeIfNeeded_on w mode fuel s Hmode Hf)
      as (s' & n & E & Hn & _ & Hj & Hp).
    exists s'. eexists. exists n. split; [exact E|]. split; [exact Hn|].
    split.
    { cbn [app pauses]. rewrite pauses_app, pauses_poll_turns.
      cbn [pauses]. apply app_nil_r. }
    split.
    { cbn [app]. unfold network_calls. cbn [filter is_post].
      fold (network_calls (poll_turns n ++ [Serial_print (if ntpSynced s' then " OK" else " Failed")])).
      rewrite network_calls_app, network_calls_poll_turns. reflexivity. }
    split.
    { intros url. cbn [app headers_to].
      rewrite headers_to_app, headers_to_poll_turns. reflexivity. }
    split.
    { intros url. cbn [app bodies_to].
      rewrite bodies_to_app, bodies_to_poll_turns. reflexivity. }
    split.
    { cbn [app displayed]. rewrite displayed_app, displayed_poll_turns.
      reflexivity. }
    split; [exact Hj|exact Hp].
  - unfold syncTimeIfNeeded. rewrite Hm.
    exists s, [], 0%nat. split; [reflexivity|]. split; [lia|].
    repeat split.
Qed.

(** [authenticate], on a 200 and on any other status. *)
Lemma authenticate_shape w s :
  exists s' tr,
    authenticate w s = Some (tt, s', tr) /\
    pauses tr = [] /\
    displayed tr = [] /\
    headers_to data_url tr = [] /\
    bodies_to data_url tr = [] /\
    ntpSynced s' = ntpSynced s /\
    (1 <= network_calls tr <= 2)%nat /\
    n_post s' = (n_post s + network_calls tr)%nat /\
    (resp_code (http_answer w (n_post s)) = HTTP_CODE_OK ->
     jwtToken s' = resp_token (http_answer w (n_post s)) /\
     bodies_to AUTH_URL tr = [auth_body]) /\
    (resp_code (http_answer w (n_post s)) <> HTTP_CODE_OK ->
     jwtToken s' = jwtToken s /\
     bodies_to AUTH_URL tr = [auth_body; auth_body]).
Proof.
  unfold authenticate.
  rewrite (bind_Some _ _ s (http_answer w (n_post s)) (posted s)
             [HTTP_POST AUTH_URL auth_headers auth_body] eq_refl).
  destruct (Z.eqb_spec (resp_code (http_answer w (n_post s))) HTTP_CODE_OK)
    as [Hok|Hko].
  - do 2 eexists. split; [reflexivity|].
    split; [reflexivity|]. split; [reflexivity|]. split; [reflexivity|].
    split; [reflexivity|]. split; [reflexivity|].
    split; [cbn; lia|]. split; [cbn; lia|].
    split; [intros _; split; reflexivity|]. intros H. contradiction.
  - do 2 eexists. split; [reflexivity|].
    split; [reflexivity|]. split; [reflexivity|]. split; [reflexivity|].
    split; [reflexivity|]. split; [reflexivity|].
    split; [cbn; lia|]. split; [cbn; lia|].
    split; [intros H; contradiction|]. intros _. split; reflexivity.
Qed.

Lemma stamped_members w synced m t doc :
  stamped w synced m t doc ->
  In ("soil_moisture", JFloat m) doc /\ In ("temperature", JFloat t) doc.
Proof.
  intros (k & ->). unfold telemetry_doc.
  destruct (String.length (if synced then getFormattedTime w k else "") =? 0)%nat;
    cbn; auto.
Qed.

(** Everything the later statements need about a full cycle that starts
    from the boot state in a world where some WiFi poll succeeds. *)
Lemma runFullCycle_facts w mode fuel k :
  wifi_connected w k = true ->
  (k < fuel)%nat ->
  (10 < fuel)%nat ->
  exists s' tr a b n,
    runFullCycle w mode fuel boot = Some (tt, s', tr) /\
    (a <= k)%nat /\ (b <= 10)%nat /\ (n <= 3)%nat /\
    pauses tr
    = repeat 500 a ++ repeat 500 b ++ 2000 :: firstn n [1000; 2000; 4000] /\
    displayed tr = [(read_moisture w, read_temperature w)] /\
    Forall (stamped w (ntpSynced s') (read_moisture w) (read_temperature w))
      (bodies_to data_url tr) /\
    Forall (eq (data_headers (jwtToken s'))) (headers_to data_url tr) /\
    (out_of_range (read_moisture w) (read_temperature w) = false ->
     (1 <= List.length (headers_to data_url tr))%nat) /\
    (List.length (headers_to data_url tr) <= 3)%nat /\
    (resp_code (http_answer w 0) = HTTP_CODE_OK ->
     jwtToken s' = resp_token (http_answer w 0) /\
     bodies_to AUTH_URL tr = [auth_body]) /\
    (resp_code (http_answer w 0) <> HTTP_CODE_OK ->
     jwtToken s' = "" /\
     bodies_to AUTH_URL tr = [auth_body; auth_body]) /\
    (1 <= network_calls tr <= 5)%nat.
Proof.
  intros Hk Hfk Hf.
  destruct (first_true (wifi_connected w) k Hk) as (a & Ha & Hwa & Hno).
  destruct (connectWiFi_run w fuel boot a Hno Hwa ltac:(lia))
    as (s1 & E1 & (A1 & B1 & C1) & _).
  destruct (syncTimeIfNeeded_run w mode fuel s1 Hf)
    as (s2 & t2 & b & E2 & Hb & Hp2 & Hc2 & Hh2 & Hbo2 & Hd2 & Hj2 & Hn2).
  destruct (authenticate_shape w s2)
    as (s3 & t3 & E3 & Hp3 & Hd3 & Hh3 & Hbo3 & Hs3 & Hc3 & Hn3 & Hok & Hko).
  destruct (sendDataWithRetry_shape w fuel (read_moisture w) (read_temperature w)
              (advance 2000 s3) ltac:(lia))
    as (o & s4 & t4 & n & E4 & Hc4 & Hn & Hp4 & _ & _ & _ & Hh4 & _ & Hj4 & Hs4
        & Hone & Hlen & Hda).
  destruct (sendDataWithRetry_loop_returns w (read_moisture w)
              (read_temperature w) fuel 0 1000 (advance 2000 s3))
    as (o' & s4' & t4' & E4' & _ & _ & Hbo4 & Hd4).
  { change (Z.to_nat (MAX_RETRIES - 0)) with 3%nat. lia. }
  unfold sendDataWithRetry in E4. rewrite E4 in E4'.
  injection E4' as <- <- <-.
  cbn [n_post boot] in C1.
  assert (H0 : n_post s2 = 0%nat) by congruence.
  rewrite H0 in Hok, Hko.
  exists s4. eexists. exists a, b, n.
  split.
  { rewrite runFullCycle_split.
    rewrite (bind_Some _ _ _ _ _ _ E1), (bind_Some _ _ _ _ _ _ E2).
    unfold after_sync.
    rewrite (bind_Some _ _ _ _ _ _ E3).
    rewrite (bind_Some _ _ s3 (read_moisture w, read_temperature w) s3
               [Request_temperatures;
                Serial_printf_ff "Moisture: %.1f%%, Temp: %.1f C\n"
                  (read_moisture w) (read_temperature w)] eq_refl).
    cbn [fst snd].
    rewrite (bind_Some _ _ s3 tt s3
               [Display_show (read_moisture w) (read_temperature w)] eq_refl).
    rewrite (bind_Some _ _ s3 tt (advance 2000 s3) [Delay 2000] eq_refl).
    unfold sendDataWithRetry. rewrite (bind_Some _ _ _ _ _ _ E4).
    change (goToDeepSleep s4) with
      (Some (tt, s4, [Serial_print "Entering deep sleep..."; Deep_sleep_start])).
    reflexivity. }
  split; [exact Ha|]. split; [exact Hb|]. split; [exact Hn|].
  cbn [jwtToken ntpSynced advance] in Hj4, Hs4, Hh4, Hbo4.
  split.
  { rewrite !pauses_app, Hp2, Hp3, Hp4, pauses_poll_turns. cbn [app pauses].
    rewrite !app_nil_r. reflexivity. }
  split.
  { rewrite !displayed_app, Hd2, Hd3, Hd4, displayed_poll_turns. reflexivity. }
  split.
  { rewrite !bodies_to_app, Hbo2, Hbo3, bodies_to_poll_turns.
    cbn [app bodies_to]. rewrite app_nil_r. rewrite Hs4. exact Hbo4. }
  split.
  { rewrite !headers_to_app, Hh2, Hh3, headers_to_poll_turns.
    cbn [app headers_to]. rewrite app_nil_r. rewrite Hj4. exact Hh4. }
  assert (Hhd : forall tr0,
            headers_to data_url
              (([WiFi_begin WIFI_SSID WIFI_PASSWORD;
                 Serial_print "Connecting to WiFi"]
                ++ poll_turns a ++ [Serial_print " Connected"])
               ++ t2 ++ t3 ++ tr0)
            = headers_to data_url tr0).
  { intros tr0. rewrite !headers_to_app, Hh2, Hh3, headers_to_poll_turns.
    reflexivity. }
  split.
  { intros Hr. rewrite Hhd. cbn [app headers_to].
    rewrite headers_to_app. cbn [headers_to]. rewrite app_nil_r, Hlen.
    apply Hone. exact Hr. }
  split.
  { rewrite Hhd. cbn [app headers_to].
    rewrite headers_to_app. cbn [headers_to]. rewrite app_nil_r, Hlen.
    exact Hc4. }
  assert (Hau : forall tr0,
            bodies_to AUTH_URL
              (([WiFi_begin WIFI_SSID WIFI_PASSWORD;
                 Serial_print "Connecting to WiFi"]
                ++ poll_turns a ++ [Serial_print " Connected"])
               ++ t2 ++ t3 ++ tr0)
            = bodies_to AUTH_URL t3 ++ bodies_to AUTH_URL tr0).
  { intros tr0. rewrite !bodies_to_app, Hbo2, bodies_to_poll_turns.
    reflexivity. }
  split.
  { intros Hc. destruct (Hok Hc) as [Ht Hb3]. split; [congruence|].
    rewrite Hau, Hb3. cbn [app bodies_to]. rewrite bodies_to_app, Hda.
    reflexivity. }
  split.
  { intros Hc. destruct (Hko Hc) as [Ht Hb3]. split.
    - rewrite Hj4, Ht, Hj2. exact A1.
    - rewrite Hau, Hb3. cbn [app bodies_to]. rewrite bodies_to_app, Hda.
      reflexivity. }
  rewrite !network_calls_app, Hc2, network_calls_poll_turns.
  revert Hc3 Hc4. generalize (network_calls t3), (network_calls t4).
  intros c3 c4 Hc3 Hc4. cbn. lia.
Qed.

(** X1: in a full cycle whose authentication request is answered 200,
    the credentials are posted once, the token of the answer becomes
    [jwtToken], and every telemetry request of the cycle (three at most,
    one at least when the temperature passes the gate) carries the header
    [Authorization: Bearer] followed by that token. *)
Theorem cycle_sends_the_token_it_was_given w mode fuel k :
  wifi_connected w k = true ->
  (k < fuel)%nat ->
  (10 < fuel)%nat ->
  resp_code (http_answer w 0) = HTTP_CODE_OK ->
  exists s' tr,
    runFullCycle w mode fuel boot = Some (tt, s', tr) /\
    bodies_to AUTH_URL tr = [auth_body] /\
    jwtToken s' = resp_token (http_answer w 0) /\
    Forall (eq [("Content-Type", "application/json");
                ("Authorization",
                 String.append "Bearer " (resp_token (http_answer w 0)))])
      (headers_to data_url tr) /\
    (List.length (headers_to data_url tr) <= 3)%nat /\
    (SFltb (read_temperature w) (F32.of_Z (-40)) = false ->
     SFltb (F32.of_Z 85) (read_temperature w) = false ->
     (1 <= List.length (headers_to data_url tr))%nat).
Proof.
  intros Hk Hfk Hf Hok.
  destruct (runFullCycle_facts w mode fuel k Hk Hfk Hf)
    as (s' & tr & a & b & n & E & _ & _ & _ & _ & _ & _ & Hh & Hone & Hmax
        & Hauth & _).
  destruct (Hauth Hok) as [Htok Hbody].
  exists s', tr. split; [exact E|]. split; [exact Hbody|].
  split; [exact Htok|]. split; [rewrite <- Htok; exact Hh|].
  split; [exact Hmax|].
  intros Hlo Hhi. apply Hone.
  destruct (read_moisture_checked w) as (Hmlo & Hmhi & _).
  unfold out_of_range. rewrite Hmlo, Hmhi, Hlo, Hhi. reflexivity.
Qed.

Lemma cycle_sends_the_token_it_was_given_witness :
  exists s' tr,
    runFullCycle world_ok TIME_SYNC_MODE 12 boot = Some (tt, s', tr) /\
    bodies_to AUTH_URL tr = [auth_body] /\
    jwtToken s' = resp_token (http_answer world_ok 0) /\
    Forall (eq [("Content-Type", "application/json");
                ("Authorization",
                 String.append "Bearer " (resp_token (http_answer world_ok 0)))])
      (headers_to data_url tr) /\
    (List.length (headers_to data_url tr) <= 3)%nat /\
    (SFltb (read_temperature world_ok) (F32.of_Z (-40)) = false ->
     SFltb (F32.of_Z 85) (read_temperature world_ok) = false ->
     (1 <= List.length (headers_to data_url tr))%nat).
Proof.
  apply (cycle_sends_the_token_it_was_given world_ok TIME_SYNC_MODE 12 0).
  - reflexivity.
  - lia.
  - lia.
  - reflexivity.
Defined.

(** X8: a full cycle hands exactly one pair to the display, the pair
    [readSensors] returned, and every telemetry body it posts holds that
    same moisture and that same temperature. *)
Theorem cycle_sends_the_reading_it_displays w mode fuel k :
  wifi_connected w k = true ->
  (k < fuel)%nat ->
  (10 < fuel)%nat ->
  exists s' tr,
    runFullCycle w mode fuel boot = Some (tt, s', tr) /\
    displayed tr = [(read_moisture w, read_temperature w)] /\
    forall doc, In doc (bodies_to data_url tr) ->
      In ("soil_moisture", JFloat (read_moisture w)) doc /\
      In ("temperature", JFloat (read_temperature w)) doc.
Proof.
  intros Hk Hfk Hf.
  destruct (runFullCycle_facts w mode fuel k Hk Hfk Hf)
    as (s' & tr & a & b & n & E & _ & _ & _ & _ & Hd & Hdocs & _).
  exists s', tr. split; [exact E|]. split; [exact Hd|].
  intros doc Hin. rewrite Forall_forall in Hdocs.
  exact (stamped_members _ _ _ _ _ (Hdocs doc Hin)).
Qed.

Lemma cycle_sends_the_reading_it_displays_witness :
  exists s' tr,
    runFullCycle world_ok TIME_SYNC_MODE 12 boot = Some (tt, s', tr) /\
    displayed tr = [(read_moisture world_ok, read_temperature world_ok)] /\
    forall doc, In doc (bodies_to data_url tr) ->
      In ("soil_moisture", JFloat (read_moisture world_ok)) doc /\
      In ("temperature", JFloat (read_temperature world_ok)) doc.
Proof.
  apply (cycle_sends_the_reading_it_displays world_ok TIME_SYNC_MODE 12 0).
  - reflexivity.
  - lia.
  - lia.
Defined.

Lemma sum_repeat_500_le n m :
  (n <= m)%nat -> fold_right Z.add 0 (repeat 500 n) <= 500 * Z.of_nat m.
Proof. intros H. rewrite total_pause_repeat. lia. Qed.

Lemma sum_app (l1 l2 : list Z) :
  fold_right Z.add 0 (l1 ++ l2) = fold_right Z.add 0 l1 + fold_right Z.add 0 l2.
Proof.
  induction l1 as [|z l1 IH]; [reflexivity|].
  cbn [app fold_right]. rewrite IH. lia.
Qed.

(** X9: a cycle that was not started by the button and in which the poll
    number [k] of [WiFi.status()] reports a connection runs to its end:
    both wake sources are armed first, the pauses are at most [k] WiFi
    pauses and ten time-sync pauses of 500 ms, the 2000 ms after the
    display and the first [n <= 3] backoff pauses, [500 * k + 14000] ms at
    most in all, at most five HTTP requests are made, and the last event is
    the start of deep sleep. *)
Theorem timer_cycle_reaches_sleep_in_bounded_time w mode fuel k :
  is_EXT0 (wakeup_cause w) = false ->
  wifi_connected w k = true ->
  (k < fuel)%nat ->
  (10 < fuel)%nat ->
  exists s' tr rest a b n,
    setup w mode fuel boot = Some (tt, s', tr) /\
    tr = [Serial_begin 115200;
          Display_begin OLED_I2C_ADDR; Display_clear; TempSensor_begin;
          PinMode_input_pullup BUTTON_PIN;
          Enable_ext0_wakeup BUTTON_PIN 0;
          Enable_timer_wakeup 3600000000] ++ rest /\
    (a <= k)%nat /\ (b <= 10)%nat /\ (n <= 3)%nat /\
    pauses tr
    = repeat 500 a ++ repeat 500 b ++ 2000 :: firstn n [1000; 2000; 4000] /\
    total_pause tr <= 500 * Z.of_nat k + 14000 /\
    (1 <= network_calls tr <= 5)%nat /\
    last tr Display_clear = Deep_sleep_start.
Proof.
  intros Hc Hk Hfk Hf. unfold setup.
  rewrite (bind_Some _ _ boot tt boot [Serial_begin 115200] eq_refl).
  rewrite (bind_Some _ _ boot tt boot
             [Display_begin OLED_I2C_ADDR; Display_clear; TempSensor_begin;
              PinMode_input_pullup BUTTON_PIN] eq_refl).
  rewrite (bind_Some _ _ boot tt boot
             [Enable_ext0_wakeup BUTTON_PIN 0;
              Enable_timer_wakeup (SLEEP_INTERVAL_SEC * 1000000)] eq_refl).
  rewrite Hc.
  destruct (runFullCycle_facts w mode fuel k Hk Hfk Hf)
    as (s' & tr & a & b & n & E & Ha & Hb & Hn & Hp & _ & _ & _ & _ & _ & _ & _
        & Hcalls).
  destruct (runFullCycle_stages w mode fuel boot k Hk Hfk Hf)
    as (s1 & t1 & s2 & t2 & s3 & t3 & _ & _ & _ & E' & _ & _ & _ & _ & _ & _ & _
        & _ & Hl).
  rewrite E in E'. injection E' as _ Htr. rewrite <- Htr in Hl.
  rewrite E. exists s'. eexists. exists tr, a, b, n.
  split; [reflexivity|]. split; [reflexivity|].
  split; [exact Ha|]. split; [exact Hb|]. split; [exact Hn|].
  split; [cbn [app pauses]; exact Hp|].
  split.
  { unfold total_pause. cbn [app pauses]. rewrite Hp, !sum_app.
    cbn [fold_right].
    pose proof (sum_repeat_500_le a k Ha) as H1.
    pose proof (sum_repeat_500_le b 10 Hb) as H2.
    assert (H3 : fold_right Z.add 0 (firstn n [1000; 2000; 4000]) <= 7000).
    { destruct n as [|[|[|[|n]]]]; cbn; lia. }
    change (Z.of_nat 10) with 10 in H2. lia. }
  split; [cbn [app]; exact Hcalls|].
  assert (Hne : tr <> []).
  { intros Hnil. rewrite Hnil in Hl. cbn in Hl. discriminate. }
  destruct (exists_last Hne) as (l & e & Heq).
  rewrite Heq in *. rewrite last_last in Hl. subst e.
  rewrite !app_assoc. apply last_last.
Qed.

Lemma timer_cycle_reaches_sleep_in_bounded_time_witness :
  exists s' tr rest a b n,
    setup world_slow_wifi TIME_SYNC_MODE 12 boot = Some (tt, s', tr) /\
    tr = [Serial_begin 115200;
          Display_begin OLED_I2C_ADDR; Display_clear; TempSensor_begin;
          PinMode_input_pullup BUTTON_PIN;
          Enable_ext0_wakeup BUTTON_PIN 0;
          Enable_timer_wakeup 3600000000] ++ rest /\
    (a <= 3)%nat /\ (b <= 10)%nat /\ (n <= 3)%nat /\
    pauses tr
    = repeat 500 a ++ repeat 500 b ++ 2000 :: firstn n [1000; 2000; 4000] /\
    total_pause tr <= 500 * Z.of_nat 3 + 14000 /\
    (1 <= network_calls tr <= 5)%nat /\
    last tr Display_clear = Deep_sleep_start.
Proof.
  apply (timer_cycle_reaches_sleep_in_bounded_time world_slow_wifi
           TIME_SYNC_MODE 12 3).
  - reflexivity.
  - reflexivity.
  - lia.
  - lia.
Defined.

(** ** Temperatures outside the range of the probe *)



(** ** The timestamp of every telemetry body *)

(** The bodies of one delivery, request by request. *)
Lemma sendDataWithRetry_bodies w fuel m t s :
  (3 < fuel)%nat ->
  exists o s' tr,
    sendDataWithRetry w fuel m t s = Some (o, s', tr) /\
    ntpSynced s' = ntpSynced s /\
    bodies_to data_url tr =
    map (fun i => telemetry_doc
                    (if ntpSynced s then getFormattedTime w (i + n_post s) else "")
                    m t)
      (seq 0 (List.length (headers_to data_url tr))).
Proof.
  intros Hf.
  destruct fuel as [|[|[|[|f]]]]; try lia.
  unfold sendDataWithRetry.
  destruct (out_of_range m t) eqn:Hr.
  { retry_rejected. retry_rejected. retry_rejected.
    rewrite retry_exit by (unfold MAX_RETRIES; lia).
    do 3 eexists. split; [reflexivity|]. split; reflexivity. }
  destruct (http_success (resp_code (http_answer w (n_post s)))) eqn:H0.
  { retry_succeeded H0.
    do 3 eexists. split; [reflexivity|]. split; [reflexivity|].
    cbn [app bodies_to headers_to]. rewrite !String.eqb_refl. reflexivity. }
  retry_failed H0.
  destruct (http_success (resp_code (http_answer w (S (n_post s))))) eqn:H1.
  { retry_succeeded H1.
    do 3 eexists. split; [reflexivity|]. split; [reflexivity|].
    cbn [app bodies_to headers_to]. rewrite !String.eqb_refl. reflexivity. }
  retry_failed H1.
  destruct (http_success (resp_code (http_answer w (S (S (n_post s)))))) eqn:H2.
  { retry_succeeded H2.
    do 3 eexists. split; [reflexivity|]. split; [reflexivity|].
    cbn [app bodies_to headers_to]. rewrite !String.eqb_refl. reflexivity. }
  retry_failed H2.
  rewrite retry_exit by (unfold MAX_RETRIES; lia).
  do 3 eexists. split; [reflexivity|]. split; [reflexivity|].
  cbn [app bodies_to headers_to]. rewrite !String.eqb_refl. reflexivity.
Qed.

Lemma authenticate_count w s :
  exists s' tr,
    authenticate w s = Some (tt, s', tr) /\
    ntpSynced s' = ntpSynced s /\
    headers_to data_url tr = [] /\
    bodies_to data_url tr = [] /\
    n_post s' =
    (if resp_code (http_answer w (n_post s)) =? HTTP_CODE_OK
     then S (n_post s) else S (S (n_post s))).
Proof.
  unfold authenticate.
  rewrite (bind_Some _ _ s (http_answer w (n_post s)) (posted s)
             [HTTP_POST AUTH_URL auth_headers auth_body] eq_refl).
  destruct (resp_code (http_answer w (n_post s)) =? HTTP_CODE_OK);
    do 2 eexists; (split; [reflexivity|]); repeat split.
Qed.

(** The telemetry bodies of a full cycle, request by request: request
    number [i] of the delivery is request number [i + auth_requests w] of
    the cycle. *)
Lemma runFullCycle_bodies w mode fuel k :
  wifi_connected w k = true ->
  (k < fuel)%nat ->
  (10 < fuel)%nat ->
  exists s' tr,
    runFullCycle w mode fuel boot = Some (tt, s', tr) /\
    bodies_to data_url tr =
    map (fun i => telemetry_doc
                    (if ntpSynced s'
                     then getFormattedTime w (i + auth_requests w) else "")
                    (read_moisture w) (read_temperature w))
      (seq 0 (List.length (headers_to data_url tr))).
Proof.
  intros Hk Hfk Hf.
  destruct (first_true (wifi_connected w) k Hk) as (a & Ha & Hwa & Hno).
  destruct (connectWiFi_run w fuel boot a Hno Hwa ltac:(lia))
    as (s1 & E1 & (A1 & B1 & C1) & _).
  destruct (syncTimeIfNeeded_run w mode fuel s1 Hf)
    as (s2 & t2 & b & E2 & _ & _ & _ & Hh2 & Hbo2 & _ & _ & Hn2).
  destruct (authenticate_count w s2) as (s3 & t3 & E3 & Hs3 & Hh3 & Hbo3 & Hn3).
  destruct (sendDataWithRetry_bodies w fuel (read_moisture w)
              (read_temperature w) (advance 2000 s3) ltac:(lia))
    as (o & s4 & t4 & E4 & Hs4 & Hbo4).
  cbn [n_post boot] in C1.
  assert (H0 : n_post s2 = 0%nat) by congruence.
  rewrite H0 in Hn3. fold (auth_requests w) in Hn3.
  assert (Hn3' : n_post s3 = auth_requests w).
  { rewrite Hn3. unfold auth_requests.
    destruct (resp_code (http_answer w 0) =? HTTP_CODE_OK); reflexivity. }
  cbn [ntpSynced n_post advance] in Hs4, Hbo4. rewrite Hn3' in Hbo4.
  exists s4. eexists. split.
  { rewrite runFullCycle_split.
    rewrite (bind_Some _ _ _ _ _ _ E1), (bind_Some _ _ _ _ _ _ E2).
    unfold after_sync.
    rewrite (bind_Some _ _ _ _ _ _ E3).
    rewrite (bind_Some _ _ s3 (read_moisture w, read_temperature w) s3
               [Request_temperatures;
                Serial_printf_ff "Moisture: %.1f%%, Temp: %.1f C\n"
                  (read_moisture w) (read_temperature w)] eq_refl).
    cbn [fst snd].
    rewrite (bind_Some _ _ s3 tt s3
               [Display_show (read_moisture w) (read_temperature w)] eq_refl).
    rewrite (bind_Some _ _ s3 tt (advance 2000 s3) [Delay 2000] eq_refl).
    rewrite (bind_Some _ _ _ _ _ _ E4).
    change (goToDeepSleep s4) with
      (Some (tt, s4, [Serial_print "Entering deep sleep..."; Deep_sleep_start])).
    reflexivity. }
  rewrite !bodies_to_app, !headers_to_app, Hbo2, Hbo3, Hh2, Hh3,
    bodies_to_poll_turns, headers_to_poll_turns.
  cbn [app bodies_to headers_to]. rewrite !app_nil_r.
  rewrite Hs4. exact Hbo4.
Qed.

Lemma nth_error_map_seq {A : Type} (f : nat -> A) :
  forall c start i x,
    nth_error (map f (seq start c)) i = Some x -> x = f (start + i)%nat.
Proof.
  induction c as [|c IH]; intros start i x H.
  - destruct i; discriminate.
  - destruct i as [|i]; cbn [seq map nth_error] in H.
    + injection H as <-. rewrite Nat.add_0_r. reflexivity.
    + rewrite (IH _ _ _ H). f_equal. lia.
Qed.

Lemma untrusted_has_no_timestamp ts m t :
  containsKey "timestamp" (telemetry_doc ts m t) = true -> ts <> "".
Proof.
  rewrite telemetry_doc_timestamp. intros H ->. discriminate.
Qed.

(** C6, counterexample: the clock is trusted ([ntpSynced] is set in the
    cycle) and yet the one telemetry body has no [timestamp] member, because
    [getFormattedTime] returned an empty text and [sendData] stores the
    member under [if (ts.length())]. *)
Lemma trusted_cycle_without_timestamp :
  exists s' tr,
    runFullCycle world_empty_stamp TIME_SYNC_MODE 12 boot = Some (tt, s', tr) /\
    ntpSynced s' = true /\
    bodies_to data_url tr =
      [[("soil_moisture", JFloat (read_moisture world_empty_stamp));
        ("temperature", JFloat (read_temperature world_empty_stamp))]] /\
    map (containsKey "timestamp") (bodies_to data_url tr) = [false].
Proof.
  do 2 eexists. split; [vm_compute; reflexivity|].
  split; [reflexivity|]. split; reflexivity.
Qed.

(** C6 (amended): in a full cycle the telemetry bodies are, request by
    request, the documents [sendData] builds from the trust flag of the
    cycle and the text [getFormattedTime] returned for that request: at
    most three, at least one when the temperature passes the gate.  A body
    holds the [timestamp] member exactly when clock trust was established
    in this cycle and the text returned for its request is not empty; so
    the member is never present without trust.  With [TIME_SYNC_MODE = 1]
    [syncTimeIfNeeded] does nothing, the flag keeps its initial value
    [false], and every body is the two-member document without
    [timestamp]. *)
Theorem timestamp_iff_trusted_and_formatted w mode fuel k :
  wifi_connected w k = true ->
  (k < fuel)%nat ->
  (10 < fuel)%nat ->
  exists s' tr c,
    runFullCycle w mode fuel boot = Some (tt, s', tr) /\
    (c <= 3)%nat /\
    (SFltb (read_temperature w) (F32.of_Z (-40)) = false ->
     SFltb (F32.of_Z 85) (read_temperature w) = false ->
     (1 <= c)%nat) /\
    bodies_to data_url tr =
    map (fun i => telemetry_doc
                    (if ntpSynced s'
                     then getFormattedTime w (i + auth_requests w) else "")
                    (read_moisture w) (read_temperature w))
      (seq 0 c) /\
    (forall i doc, nth_error (bodies_to data_url tr) i = Some doc ->
       (containsKey "timestamp" doc = true <->
        ntpSynced s' = true /\ getFormattedTime w (i + auth_requests w) <> "")) /\
    (forall doc, In doc (bodies_to data_url tr) ->
       containsKey "timestamp" doc = true -> ntpSynced s' = true) /\
    exists s1 tr1 c1,
      runFullCycle w 1 fuel boot = Some (tt, s1, tr1) /\
      ntpSynced s1 = false /\
      (c1 <= 3)%nat /\
      (SFltb (read_temperature w) (F32.of_Z (-40)) = false ->
       SFltb (F32.of_Z 85) (read_temperature w) = false ->
       (1 <= c1)%nat) /\
      bodies_to data_url tr1 =
      repeat [("soil_moisture", JFloat (read_moisture w));
              ("temperature", JFloat (read_temperature w))] c1 /\
      forall doc, In doc (bodies_to data_url tr1) ->
        containsKey "timestamp" doc = false.
Proof.
  intros Hk Hfk Hf.
  assert (Hgate : SFltb (read_temperature w) (F32.of_Z (-40)) = false ->
                  SFltb (F32.of_Z 85) (read_temperature w) = false ->
                  out_of_range (read_moisture w) (read_temperature w) = false).
  { intros Hlo Hhi. destruct (read_moisture_checked w) as (Hmlo & Hmhi & _).
    unfold out_of_range. rewrite Hmlo, Hmhi, Hlo, Hhi. reflexivity. }
  destruct (runFullCycle_facts w mode fuel k Hk Hfk Hf)
    as (s' & tr & a & b & n & E & _ & _ & _ & _ & _ & _ & _ & Hone & Hmax & _).
  destruct (runFullCycle_bodies w mode fuel k Hk Hfk Hf) as (s0 & tr0 & E0 & Hbo).
  rewrite E in E0. injection E0 as <- <-.
  exists s', tr, (List.length (headers_to data_url tr)).
  split; [exact E|]. split; [exact Hmax|].
  split; [intros Hlo Hhi; exact (Hone (Hgate Hlo Hhi))|].
  split; [exact Hbo|].
  split; [|split].
  - intros i doc Hnth. rewrite Hbo in Hnth.
    apply nth_error_map_seq in Hnth. cbn [Nat.add] in Hnth. subst doc.
    rewrite telemetry_doc_timestamp.
    destruct (ntpSynced s').
    + destruct (String.length (getFormattedTime w (i + auth_requests w)) =? 0)%nat
        eqn:Hlen.
      * apply length_zero_empty in Hlen. rewrite Hlen. split; [discriminate|].
        intros [_ Hx]. contradiction.
      * split; [|reflexivity]. intros _. split; [reflexivity|].
        intros Hx. rewrite Hx in Hlen. discriminate.
    + split; [discriminate|]. intros [Hx _]. discriminate.
  - intros doc Hin Hc. rewrite Hbo in Hin. apply in_map_iff in Hin.
    destruct Hin as (i & <- & _).
    apply untrusted_has_no_timestamp in Hc.
    destruct (ntpSynced s'); [reflexivity|contradiction].
  - destruct (runFullCycle_facts w 1 fuel k Hk Hfk Hf)
      as (s1 & tr1 & a1 & b1 & n1 & E1 & _ & _ & _ & _ & _ & _ & _ & Hone1
          & Hmax1 & _).
    destruct (runFullCycle_bodies w 1 fuel k Hk Hfk Hf)
      as (s1' & tr1' & E1' & Hbo1).
    rewrite E1 in E1'. injection E1' as <- <-.
    destruct (runFullCycle_stages w 1 fuel boot k Hk Hfk Hf)
      as (u1 & t1 & u2 & t2 & u3 & t3 & _ & _ & _ & E1'' & (_ & B & _) & _ & _
          & Hn3 & Hoff & _).
    rewrite E1 in E1''. injection E1'' as Hs _.
    destruct (Hoff eq_refl) as [Hu _].
    assert (Hfalse : ntpSynced s1 = false).
    { rewrite Hs, Hn3, Hu, B. reflexivity. }
    exists s1, tr1, (List.length (headers_to data_url tr1)).
    split; [exact E1|]. split; [exact Hfalse|]. split; [exact Hmax1|].
    split; [intros Hlo Hhi; exact (Hone1 (Hgate Hlo Hhi))|].
    rewrite Hfalse in Hbo1.
    assert (Hrep : forall c,
              map (fun _ : nat => telemetry_doc "" (read_moisture w)
                                    (read_temperature w)) (seq 0 c)
              = repeat [("soil_moisture", JFloat (read_moisture w));
                        ("temperature", JFloat (read_temperature w))] c).
    { intros c. generalize 0%nat. induction c as [|c IH]; intros st;
        [reflexivity|]. cbn [seq map repeat]. f_equal. apply IH. }
    rewrite Hrep in Hbo1. split; [exact Hbo1|].
    intros doc Hin. rewrite Hbo1 in Hin. apply repeat_spec in Hin.
    subst doc. reflexivity.
Qed.

Lemma timestamp_iff_trusted_and_formatted_witness :
  exists s' tr c,
    runFullCycle world_late_ntp TIME_SYNC_MODE 12 boot = Some (tt, s', tr) /\
    (c <= 3)%nat /\
    (SFltb (read_temperature world_late_ntp) (F32.of_Z (-40)) = false ->
     SFltb (F32.of_Z 85) (read_temperature world_late_ntp) = false ->
     (1 <= c)%nat) /\
    bodies_to data_url tr =
    map (fun i => telemetry_doc
                    (if ntpSynced s'
                     then getFormattedTime world_late_ntp
                            (i + auth_requests world_late_ntp) else "")
                    (read_moisture world_late_ntp)
                    (read_temperature world_late_ntp))
      (seq 0 c) /\
    (forall i doc, nth_error (bodies_to data_url tr) i = Some doc ->
       (containsKey "timestamp" doc = true <->
        ntpSynced s' = true /\
        getFormattedTime world_late_ntp (i + auth_requests world_late_ntp) <> "")) /\
    (forall doc, In doc (bodies_to data_url tr) ->
       containsKey "timestamp" doc = true -> ntpSynced s' = true) /\
    exists s1 tr1 c1,
      runFullCycle world_late_ntp 1 12 boot = Some (tt, s1, tr1) /\
      ntpSynced s1 = false /\
      (c1 <= 3)%nat /\
      (SFltb (read_temperature world_late_ntp) (F32.of_Z (-40)) = false ->
       SFltb (F32.of_Z 85) (read_temperature world_late_ntp) = false ->
       (1 <= c1)%nat) /\
      bodies_to data_url tr1 =
      repeat [("soil_moisture", JFloat (read_moisture world_late_ntp));
              ("temperature", JFloat (read_temperature world_late_ntp))] c1 /\
      forall doc, In doc (bodies_to data_url tr1) ->
        containsKey "timestamp" doc = false.
Proof.
  apply (timestamp_iff_trusted_and_formatted world_late_ntp TIME_SYNC_MODE 12 0).
  - reflexivity.
  - lia.
  - lia.
Defined.

(** The two cycles of the witness, evaluated: the clock is set at its third
    reading in mode 2 and the body is stamped; in mode 1 it is not. *)
Lemma timestamp_cycles_example :
  (exists s' tr,
     runFullCycle world_late_ntp 2 12 boot = Some (tt, s', tr) /\
     ntpSynced s' = true /\
     bodies_to data_url tr =
       [[("timestamp", JString iso_stamp);
         ("soil_moisture", JFloat (read_moisture world_late_ntp));
         ("temperature", JFloat (read_temperature world_late_ntp))]]) /\
  (exists s' tr,
     runFullCycle world_late_ntp 1 12 boot = Some (tt, s', tr) /\
     ntpSynced s' = false /\
     bodies_to data_url tr =
       [[("soil_moisture", JFloat (read_moisture world_late_ntp));
         ("temperature", JFloat (read_temperature world_late_ntp))]]).
Proof.
  split; do 2 eexists; (split; [vm_compute; reflexivity|]);
    split; reflexivity.
Qed.

(** ** The third answer of the probe *)

(** X11: [readSensors] reads the probe once for each use of the macro
    argument.  When the first answer is not below -40 and the second is not
    above 85, the temperature it returns is the third answer, not clamped;
    if that answer is below -40 or above 85 the gate of [sendData] rejects
    the reading on each of the three attempts and the delivery ends
    [Abandoned] without a request. *)
Theorem unclamped_third_answer_is_rejected w fuel s :
  (3 < fuel)%nat ->
  SFltb (F64.of_float (temp_c w 0%nat)) (F64.of_Z (-40)) = false ->
  SFltb (F64.of_Z 85) (F64.of_float (temp_c w 1%nat)) = false ->
  SFltb (F64.to_float (F64.of_float (temp_c w 2%nat))) (F32.of_Z (-40)) = true \/
  SFltb (F32.of_Z 85) (F64.to_float (F64.of_float (temp_c w 2%nat))) = true ->
  read_temperature w = F64.to_float (F64.of_float (temp_c w 2%nat)) /\
  exists s',
    sendDataWithRetry w fuel (read_moisture w) (read_temperature w) s
    = Some (Abandoned, s',
            [Serial_print "Sensor values out of range, abort send";
             Serial_printf_d "Send failed, retry %d\n" 1; Delay 1000;
             Serial_print "Sensor values out of range, abort send";
             Serial_printf_d "Send failed, retry %d\n" 2; Delay 2000;
             Serial_print "Sensor values out of range, abort send";
             Serial_printf_d "Send failed, retry %d\n" 3; Delay 4000;
             Serial_print "Max retries reached, giving up"]) /\
    n_post s' = n_post s.
Proof.
  intros Hf H0 H1 H2.
  assert (Ht : read_temperature w = F64.to_float (F64.of_float (temp_c w 2%nat))).
  { unfold read_temperature, constrain_call. rewrite H0, H1. reflexivity. }
  split; [exact Ht|].
  assert (Hr : out_of_range (read_moisture w) (read_temperature w) = true).
  { apply out_of_range_intro. rewrite Ht. right. right. exact H2. }
  destruct fuel as [|[|[|[|f]]]]; try lia.
  unfold sendDataWithRetry.
  retry_rejected. retry_rejected. retry_rejected.
  rewrite retry_exit by (unfold MAX_RETRIES; lia).
  eexists. split; reflexivity.
Qed.

Lemma unclamped_third_answer_is_rejected_witness :
  read_temperature world_probe_glitch
  = F64.to_float (F64.of_float (temp_c world_probe_glitch 2%nat)) /\
  exists s',
    sendDataWithRetry world_probe_glitch 4 (read_moisture world_probe_glitch)
      (read_temperature world_probe_glitch) boot
    = Some (Abandoned, s',
            [Serial_print "Sensor values out of range, abort send";
             Serial_printf_d "Send failed, retry %d\n" 1; Delay 1000;
             Serial_print "Sensor values out of range, abort send";
             Serial_printf_d "Send failed, retry %d\n" 2; Delay 2000;
             Serial_print "Sensor values out of range, abort send";
             Serial_printf_d "Send failed, retry %d\n" 3; Delay 4000;
             Serial_print "Max retries reached, giving up"]) /\
    n_post s' = n_post boot.
Proof.
  apply (unclamped_third_answer_is_rejected world_probe_glitch 4 boot).
  - lia.
  - reflexivity.
  - reflexivity.
  - left. reflexivity.
Defined.

(** The cycle of the witness: the probe answers 22, 22 and -127; the
    display shows -127 and no telemetry request is made. *)
Lemma probe_glitch_cycle_example :
  read_temperature world_probe_glitch = F32.of_Z (-127) /\
  exists s' tr,
    runFullCycle world_probe_glitch TIME_SYNC_MODE 12 boot = Some (tt, s', tr) /\
    displayed tr = [(read_moisture world_probe_glitch, F32.of_Z (-127))] /\
    bodies_to data_url tr = [] /\
    network_calls tr = 1%nat.
Proof.
  split; [reflexivity|]. do 2 eexists. split; [vm_compute; reflexivity|].
  split; [reflexivity|]. split; reflexivity.
Qed.
